(** * Medical symptoms chatbot: conversation store, severity gate and
      RAG orchestrator

    A shallow embedding of [src/memory_manager.py], [src/rag_chain.py],
    [config.py] and of [MedicalChatbot._handle_user_input] from
    [medical_chatbot.py], together with the properties that the
    specification states about them.

    Conventions.
    - A Python [str] is a [string]; the character predicates of Python
      ([str.isalnum], [str.lower]) are modelled on the ASCII range, and a
      character outside it is treated as a non-alphanumeric character
      without case; a literal of the source is its UTF-8 text.  Paths
      follow [posixpath].
    - A value read from or written to a JSON file is a [json] term; a Python
      [dict] with string keys is a [gmap string json].
    - Code that reads the clock, touches the file system, or calls the
      language model or the vector index runs in the monad [M], which
      threads a [world] and may raise an [exn]. *)

From Stdlib Require Import String Ascii ZArith List Bool Lia.
From stdpp Require Import gmap strings list fin_maps.
Import ListNotations.
Open Scope string_scope.
Open Scope list_scope.
Set Warnings "-register-all".

(** ** Python string built-ins *)

Module Py.

(** [c.isalnum()] for a one-character string, on the ASCII range. *)
Definition isalnum (c : ascii) : bool :=
  let n := N_of_ascii c in
  ((48 <=? n) && (n <=? 57) || (65 <=? n) && (n <=? 90)
   || (97 <=? n) && (n <=? 122))%N.

Definition lower_char (c : ascii) : ascii :=
  let n := N_of_ascii c in
  if ((65 <=? n) && (n <=? 90))%N then ascii_of_N (n + 32) else c.

(** [s.lower()] *)
Fixpoint lower (s : string) : string :=
  match s with
  | EmptyString => EmptyString
  | String c t => String (lower_char c) (lower t)
  end.

(** [s.startswith(p)] *)
Fixpoint startswith (p s : string) : bool :=
  match p, s with
  | EmptyString, _ => true
  | String a p', String b s' => Ascii.eqb a b && startswith p' s'
  | String _ _, EmptyString => false
  end.

(** [needle in hay] on strings: [needle] occurs as a contiguous run. *)
Fixpoint contains (needle hay : string) : bool :=
  match hay with
  | EmptyString => startswith needle EmptyString
  | String _ t => startswith needle hay || contains needle t
  end.

(** [s.endswith(p)] *)
Fixpoint endswith (p s : string) : bool :=
  match s with
  | EmptyString => String.eqb p EmptyString
  | String _ t => String.eqb p s || endswith p t
  end.

(** ["".join(c for c in s if keep c)] *)
Fixpoint filter_chars (keep : ascii -> bool) (s : string) : string :=
  match s with
  | EmptyString => EmptyString
  | String c t =>
      if keep c then String c (filter_chars keep t) else filter_chars keep t
  end.

(** [s[:n]] for [n >= 0] *)
Fixpoint take (n : nat) (s : string) : string :=
  match n, s with
  | O, _ => EmptyString
  | S _, EmptyString => EmptyString
  | S n', String c t => String c (take n' t)
  end.

(** [s.replace(old, "")] for a non-empty [old]: the occurrences of [old],
    found left to right without overlap, are deleted.  [skip] counts the
    characters of the current occurrence that are still to be dropped. *)
Fixpoint delete_from (old : string) (skip : nat) (s : string) : string :=
  match s with
  | EmptyString => EmptyString
  | String c t =>
      match skip with
      | S k => delete_from old k t
      | O =>
          if startswith old s then delete_from old (String.length old - 1) t
          else String c (delete_from old 0 t)
      end
  end.

Definition delete_all (old s : string) : string := delete_from old 0 s.

(** [sep.join(parts)] *)
Definition join (sep : string) (parts : list string) : string :=
  String.concat sep parts.

(** [posixpath.join(a, b)] *)
Definition path_join (a b : string) : string :=
  if startswith "/" b then b
  else if String.eqb a EmptyString || endswith "/" a then a +:+ b
  else a +:+ "/" +:+ b.

(** Python list slice [l[start:]] for an integer [start] of either sign. *)
Definition slice_from {A} (start : Z) (l : list A) : list A :=
  if (start <? 0)%Z
  then drop (Z.to_nat (Z.of_nat (length l) + start)) l
  else drop (Z.to_nat start) l.

End Py.

(** ** config.py *)

Definition NL : string := String (ascii_of_nat 10) EmptyString.

Definition MEDICAL_DISCLAIMER : string :=
  NL +:+ "⚠️ **IMPORTANT DISCLAIMER**" +:+ NL +:+
  "I am an AI assistant, NOT a doctor. The information provided is for educational purposes only and should not be considered medical advice. Always consult with a qualified healthcare professional for diagnosis and treatment. If you are experiencing a medical emergency, please call your local emergency services immediately."
  +:+ NL.

Definition SEVERITY_KEYWORDS : list string :=
  [ "chest pain"; "difficulty breathing"; "severe headache"; "stroke";
    "heart attack"; "unconscious"; "high fever"; "severe bleeding";
    "allergic reaction"; "anaphylaxis"; "sudden numbness"; "slurred speech" ].

(** Defaults of the values that [config.py] reads from the environment. *)
Definition DEFAULT_MEMORY_PATH : string := "memory/users".
Definition DEFAULT_MAX_CONVERSATION_HISTORY : Z := 10.
Definition DEFAULT_RETRIEVER_K : Z := 5.


(** ** JSON values and the Python operations the code applies to them *)

(** What [json.load] can return and [json.dump] can write.  Numbers are
    integers; a file holding a fractional number is outside the model. *)
Inductive json : Type :=
| JNull
| JBool (b : bool)
| JNum (z : Z)
| JStr (s : string)
| JList (l : list json)
| JDict (d : gmap string json).

(** The exceptions that the modelled code can meet.  All of them derive from
    [Exception]; [IOError] is an alias of [OSError]; [UnicodeDecodeError]
    and [JSONDecodeError] are unrelated subclasses of [ValueError]. *)
Inductive exn : Type :=
| JSONDecodeError
| OSError
| UnicodeDecodeError
| KeyError
| TypeError
| AttributeError.

Inductive result (A : Type) : Type :=
| Ok (a : A)
| Raise (e : exn).
Arguments Ok {A} a.
Arguments Raise {A} e.

Definition rbind {A B} (r : result A) (k : A -> result B) : result B :=
  match r with
  | Ok a => k a
  | Raise e => Raise e
  end.

Declare Scope result_scope.
Delimit Scope result_scope with res.
Notation "x <-? r ;; k" := (rbind r (fun x => k))
  (at level 100, r at next level, right associativity) : result_scope.

Section PyJson.
Local Open Scope result_scope.

(** [str(v)] of a value that is not a string (a list, a dict, a number, a
    boolean or [None]): a Python built-in, taken as a parameter. *)
Variable py_repr : json -> string.

(** [f"{v}"] *)
Definition py_str (v : json) : string :=
  match v with
  | JStr s => s
  | _ => py_repr v
  end.

(** [bool(v)], as used by [if not v] *)
Definition truthy (v : json) : bool :=
  match v with
  | JNull => false
  | JBool b => b
  | JNum z => negb (z =? 0)%Z
  | JStr s => negb (String.eqb s EmptyString)
  | JList l => match l with [] => false | _ :: _ => true end
  | JDict d => negb (bool_decide (d = ∅))
  end.

(** [v[key]] for a string [key] *)
Definition getitem (v : json) (key : string) : result json :=
  match v with
  | JDict d => match d !! key with Some x => Ok x | None => Raise KeyError end
  | _ => Raise TypeError
  end.

(** [v[key] = x] for a string [key] *)
Definition setitem (v : json) (key : string) (x : json) : result json :=
  match v with
  | JDict d => Ok (JDict (<[key := x]> d))
  | _ => Raise TypeError
  end.

(** [v.get(key, default)] *)
Definition py_get (v : json) (key : string) (default : json) : result json :=
  match v with
  | JDict d => Ok (match d !! key with Some x => x | None => default end)
  | _ => Raise AttributeError
  end.

(** [v.append(x)] *)
Definition py_append (v x : json) : result json :=
  match v with
  | JList l => Ok (JList (l ++ [x]))
  | _ => Raise AttributeError
  end.

(** [v.update(patch)]: the keys of [patch] win. *)
Definition py_update (v : json) (patch : gmap string json) : result json :=
  match v with
  | JDict d => Ok (JDict (patch ∪ d))
  | _ => Raise AttributeError
  end.

(** [len(v)] *)
Definition py_len (v : json) : result nat :=
  match v with
  | JStr s => Ok (String.length s)
  | JList l => Ok (length l)
  | JDict d => Ok (size d)
  | _ => Raise TypeError
  end.

(** [v[:n]] *)
Definition slice_to (n : nat) (v : json) : result json :=
  match v with
  | JStr s => Ok (JStr (Py.take n s))
  | JList l => Ok (JList (firstn n l))
  | _ => Raise TypeError
  end.

(** [v[start:]]; slicing a dict raises [TypeError] up to Python 3.11. *)
Definition slice_from (start : Z) (v : json) : result json :=
  match v with
  | JStr s =>
      Ok (JStr (string_of_list_ascii
                  (Py.slice_from start (list_ascii_of_string s))))
  | JList l => Ok (JList (Py.slice_from start l))
  | _ => Raise TypeError
  end.

(** The items that [for x in v] visits when [v] is a list or a string. *)
Definition py_iter (v : json) : result (list json) :=
  match v with
  | JList l => Ok l
  | JStr s =>
      Ok (map (fun c => JStr (String c EmptyString)) (list_ascii_of_string s))
  | JDict d => Ok (map (fun kv => JStr (fst kv)) (map_to_list d))
  | _ => Raise TypeError
  end.

End PyJson.

(** ** The world: file system, clock and calls to the collaborators *)

(** What opening a directory entry for reading with [encoding='utf-8'] and
    passing it to [json.load] does. *)
Inductive file_data : Type :=
| Parsed (j : json)   (* UTF-8 text that is the JSON document [j] *)
| NotJson             (* UTF-8 text, not JSON: [json.JSONDecodeError] *)
| NotUtf8             (* bytes that are not UTF-8: [UnicodeDecodeError] *)
| Unreadable.         (* [open] fails for reading: [OSError] *)

Record file : Type := File { data : file_data; writable : bool }.

Record Document : Type :=
  { page_content : string; doc_metadata : json }.

Record chain_input : Type :=
  { context : string; question : string; conversation_history : string }.

Inductive event : Type :=
| Searched (query : string) (k : Z)     (* [search_vector_db] was called *)
| Generated (input : chain_input).     (* [chain.invoke] was called *)

Record world : Type := World {
  dirs : gset string;          (* existing directories, each ending in "/" *)
  files : gmap string file;    (* the other directory entries, by path *)
  clock : nat;                 (* how many times the clock has been read *)
  trace : list event           (* calls made so far, oldest first *)
}.

Definition M (A : Type) : Type := world -> result A * world.

Definition ret {A} (a : A) : M A := fun w => (Ok a, w).

Definition raise {A} (e : exn) : M A := fun w => (Raise e, w).

Definition bind {A B} (m : M A) (k : A -> M B) : M B :=
  fun w =>
    match m w with
    | (Ok a, w') => k a w'
    | (Raise e, w') => (Raise e, w')
    end.

Definition lift {A} (r : result A) : M A := fun w => (r, w).

(** [try: m  except <classes>: h]: [h] runs for the exceptions that
    [caught] selects, the others pass through. *)
Definition try_except {A} (m : M A) (caught : exn -> bool) (h : M A) : M A :=
  fun w =>
    match m w with
    | (Ok a, w') => (Ok a, w')
    | (Raise e, w') => if caught e then h w' else (Raise e, w')
    end.

Declare Scope monad_scope.
Delimit Scope monad_scope with monad.
Notation "x <- m ;; k" := (bind m (fun x => k))
  (at level 100, m at next level, right associativity) : monad_scope.
Notation "m ;; k" := (bind m (fun _ => k))
  (at level 100, right associativity) : monad_scope.

(** The directory that a path names, written with its final separator. *)
Definition dir_key (p : string) : string := Py.path_join p EmptyString.

(** The directory part of a path, up to and including the last separator. *)
Fixpoint parent_key (p : string) : string :=
  match p with
  | EmptyString => EmptyString
  | String c t =>
      if Py.contains "/" p then String c (parent_key t) else EmptyString
  end.

(** The name of [p] as an entry of directory [d], when it is one. *)
Fixpoint strip_prefix (pre s : string) : option string :=
  match pre, s with
  | EmptyString, _ => Some s
  | String a pre', String b s' =>
      if Ascii.eqb a b then strip_prefix pre' s' else None
  | String _ _, EmptyString => None
  end.

Definition entry_name (d p : string) : option string :=
  match strip_prefix (dir_key d) p with
  | Some n =>
      if String.eqb n EmptyString || Py.contains "/" n then None else Some n
  | None => None
  end.

Definition subdir_name (d k : string) : option string :=
  match strip_prefix (dir_key d) k with
  | Some n =>
      if Py.endswith "/" n
      then let n' := Py.take (String.length n - 1) n in
           if String.eqb n' EmptyString || Py.contains "/" n' then None
           else Some n'
      else None
  | None => None
  end.

(** [p] names an existing directory; the empty path names nothing. *)
Definition is_dir (w : world) (p : string) : bool :=
  negb (String.eqb p EmptyString) && bool_decide (dir_key p ∈ dirs w).

Definition parent_exists (w : world) (p : string) : bool :=
  let k := parent_key p in
  String.eqb k EmptyString || String.eqb k "/" || bool_decide (k ∈ dirs w).

(** ** The objects of the program *)

Record MemoryManager : Type := { memory_path : string }.

(** What a call to an external service does: it returns, or it raises an
    [Exception] whose [str] is [message]. *)
Inductive outcome (A : Type) : Type :=
| Returned (a : A)
| Failed (message : string).
Arguments Returned {A} a.
Arguments Failed {A} message.

Record MedicalRAGChain : Type := {
  (** [self.chain.invoke]: prompt, language model and output parser *)
  chain : chain_input -> outcome string;
  (** [self.vector_db.similarity_search], or [None] *)
  vector_db : option (string -> Z -> outcome (list Document));
  memory_manager : MemoryManager;
  retriever_k : Z
}.

Record Source : Type := { content : string; metadata : json }.

Record Response : Type := {
  answer : string;
  sources : list Source;
  severity_detected : bool
}.

(** [self.memory_manager] is the object that was handed to the chain. *)
Record MedicalChatbot : Type := {
  rag_chain : MedicalRAGChain;
  cb_user_id : string;
  show_sources : bool
}.

Section Store.
Local Open Scope monad_scope.

(** [int(os.getenv("MAX_CONVERSATION_HISTORY", "10"))] *)
Variable MAX_CONVERSATION_HISTORY : Z.

(** The ISO rendering of the [n]-th reading of the clock. *)
Variable stamp : nat -> string.

Variable py_repr : json -> string.

(** [datetime.utcnow().isoformat()] *)
Definition utcnow_isoformat : M string :=
  fun w => (Ok (stamp (clock w)),
            World (dirs w) (files w) (S (clock w)) (trace w)).

(** [os.path.exists(p)] *)
Definition os_path_exists (p : string) : M bool :=
  fun w => (Ok (bool_decide (is_Some (files w !! p)) || is_dir w p), w).

(** [with open(p, 'r', encoding='utf-8') as f: json.load(f)] *)
Definition json_load_file (p : string) : M json :=
  fun w =>
    match files w !! p with
    | Some f =>
        match data f with
        | Parsed j => (Ok j, w)
        | NotJson => (Raise JSONDecodeError, w)
        | NotUtf8 => (Raise UnicodeDecodeError, w)
        | Unreadable => (Raise OSError, w)
        end
    | None => (Raise OSError, w)
    end.

(** [with open(p, 'w', encoding='utf-8') as f: json.dump(j, f, ...)]; a
    later [json.load] of the file returns [j]. *)
Definition json_dump_file (p : string) (j : json) : M unit :=
  fun w =>
    let written :=
      World (dirs w) (<[p := File (Parsed j) true]> (files w))
            (clock w) (trace w) in
    if is_dir w p then (Raise OSError, w)
    else match files w !! p with
         | Some f => if writable f then (Ok tt, written) else (Raise OSError, w)
         | None =>
             if parent_exists w p
             then (Ok tt, written) else (Raise OSError, w)
         end.

(** [os.listdir(d)] *)
Definition os_listdir (d : string) : M (list string) :=
  fun w =>
    if is_dir w d
    then (Ok (omap (entry_name d) (elements (dom (files w)))
              ++ omap (subdir_name d) (elements (dirs w))), w)
    else (Raise OSError, w).

(** [os.makedirs(p, exist_ok=True)] *)
Definition os_makedirs (p : string) : M unit :=
  fun w =>
    if String.eqb p EmptyString then (Raise OSError, w)
    else (Ok tt,
          World ({[dir_key p]} ∪ dirs w) (files w) (clock w) (trace w)).

Definition log (e : event) : M unit :=
  fun w => (Ok tt, World (dirs w) (files w) (clock w) (trace w ++ [e])).


(** *** src/memory_manager.py *)

Definition _ensure_memory_directory (self : MemoryManager) : M unit :=
  found <- os_path_exists (memory_path self) ;;
  if negb found then os_makedirs (memory_path self) else ret tt.

(** [MemoryManager.__init__] *)
Definition MemoryManager_init (path : string) : M MemoryManager :=
  let self := {| memory_path := path |} in
  _ensure_memory_directory self ;;
  ret self.

Definition safe_char (c : ascii) : bool :=
  Py.isalnum c || Py.contains (String c EmptyString) "-_".

Definition _get_user_file_path (self : MemoryManager) (user_id : string)
  : string :=
  let safe_user_id := Py.filter_chars safe_char user_id in
  Py.path_join (memory_path self) (safe_user_id +:+ ".json").

(** A dict display [{k1: v1, ...}] *)
Definition dict (items : list (string * json)) : gmap string json :=
  list_to_map items.

Definition _create_default_memory (user_id : string) : M json :=
  created_at <- utcnow_isoformat ;;
  ret (JDict (dict
    [ ("user_id", JStr user_id);
      ("created_at", JStr created_at);
      ("conversations", JList []);
      ("preferences", JDict (dict
         [ ("name", JStr user_id);
           ("known_conditions", JList []);
           ("allergies", JList []) ])) ])).

(** [except (json.JSONDecodeError, IOError)] *)
Definition corrupt_file_error (e : exn) : bool :=
  match e with
  | JSONDecodeError | OSError => true
  | _ => false
  end.

Definition get_user_memory (self : MemoryManager) (user_id : string)
  : M json :=
  let file_path := _get_user_file_path self user_id in
  found <- os_path_exists file_path ;;
  if found : bool then
    try_except (json_load_file file_path)
      corrupt_file_error
      (_create_default_memory user_id)
  else _create_default_memory user_id.

Definition save_conversation (self : MemoryManager)
    (user_id user_message bot_response : string)
    (metadata : option (gmap string json)) : M unit :=
  memory <- get_user_memory self user_id ;;
  timestamp <- utcnow_isoformat ;;
  let conversation_entry := JDict (dict
    [ ("timestamp", JStr timestamp);
      ("user_message", JStr user_message);
      ("bot_response", JStr bot_response);
      ("metadata", JDict (default ∅ metadata)) ]) in
  conversations <- lift (getitem memory "conversations") ;;
  conversations <- lift (py_append conversations conversation_entry) ;;
  memory <- lift (setitem memory "conversations" conversations) ;;
  n <- lift (py_len conversations) ;;
  memory <-
    (if (Z.of_nat n >? MAX_CONVERSATION_HISTORY)%Z
     then
       recent <- lift (slice_from (- MAX_CONVERSATION_HISTORY) conversations) ;;
       lift (setitem memory "conversations" recent)
     else ret memory) ;;
  let file_path := _get_user_file_path self user_id in
  json_dump_file file_path memory.

Definition get_conversation_history (self : MemoryManager)
    (user_id : string) : M json :=
  memory <- get_user_memory self user_id ;;
  lift (py_get memory "conversations" (JList [])).

(** The two lines that one turn contributes to the formatted history. *)
Definition format_turn (conv : json) : result (list string) :=
  (user_message <-? getitem conv "user_message" ;;
   bot_response <-? getitem conv "bot_response" ;;
   n <-? py_len bot_response ;;
   if (200 <? n)%nat
   then
     preview <-? slice_to 200 bot_response ;;
     Ok [ "User: " +:+ py_str py_repr user_message;
          "Assistant: " +:+ py_str py_repr preview +:+ "..." ]
   else
     Ok [ "User: " +:+ py_str py_repr user_message;
          "Assistant: " +:+ py_str py_repr bot_response ])%res.

Fixpoint format_turns (turn : json -> result (list string))
    (convs : list json) : result (list string) :=
  match convs with
  | [] => Ok []
  | conv :: rest =>
      (lines <-? turn conv ;;
       more <-? format_turns turn rest ;;
       Ok (lines ++ more))%res
  end.

Definition get_formatted_history (self : MemoryManager)
    (user_id : string) (max_turns : Z) : M string :=
  conversations <- get_conversation_history self user_id ;;
  if negb (truthy conversations) then ret EmptyString
  else
    recent_conversations <- lift (slice_from (- max_turns) conversations) ;;
    items <- lift (py_iter recent_conversations) ;;
    formatted_history <- lift (format_turns format_turn items) ;;
    ret (Py.join NL formatted_history).

Definition update_user_preferences (self : MemoryManager)
    (user_id : string) (preferences : gmap string json) : M unit :=
  memory <- get_user_memory self user_id ;;
  current <- lift (getitem memory "preferences") ;;
  merged <- lift (py_update current preferences) ;;
  memory <- lift (setitem memory "preferences" merged) ;;
  let file_path := _get_user_file_path self user_id in
  json_dump_file file_path memory.

Definition get_user_preferences (self : MemoryManager) (user_id : string)
  : M json :=
  memory <- get_user_memory self user_id ;;
  lift (py_get memory "preferences" (JDict ∅)).

Definition clear_user_memory (self : MemoryManager) (user_id : string)
  : M unit :=
  memory <- _create_default_memory user_id ;;
  let file_path := _get_user_file_path self user_id in
  json_dump_file file_path memory.

Definition list_users (self : MemoryManager) : M (list string) :=
  found <- os_path_exists (memory_path self) ;;
  if negb found then ret []
  else
    filenames <- os_listdir (memory_path self) ;;
    ret (map (Py.delete_all ".json")
             (List.filter (Py.endswith ".json") filenames)).

(** *** src/vector_store.py and src/rag_chain.py *)

Definition search_vector_db
    (db : option (string -> Z -> outcome (list Document)))
    (query : string) (k : Z) : M (list Document) :=
  log (Searched query k) ;;
  match db with
  | None => ret []
  | Some similarity_search =>
      match similarity_search query k with
      | Returned docs => ret docs
      | Failed _ => ret []
      end
  end.

(** One turn as [_format_chat_history] renders it. *)
Definition format_chat_turn (conv : json) : result (list string) :=
  (user_message <-? getitem conv "user_message" ;;
   bot_response <-? getitem conv "bot_response" ;;
   preview <-? slice_to 200 bot_response ;;
   Ok [ "User: " +:+ py_str py_repr user_message;
        "Assistant: " +:+ py_str py_repr preview +:+ "..." ])%res.

Definition _format_chat_history (self : MedicalRAGChain) (user_id : string)
  : M string :=
  conversations <- get_conversation_history (memory_manager self) user_id ;;
  if negb (truthy conversations) then ret EmptyString
  else
    recent <- lift (slice_from (-10) conversations) ;;
    items <- lift (py_iter recent) ;;
    formatted_history <- lift (format_turns format_chat_turn items) ;;
    ret (Py.join NL formatted_history).

(** The loop of [_check_severity]: the first keyword found answers. *)
Fixpoint any_keyword_in (keywords : list string) (query_lower : string)
  : bool :=
  match keywords with
  | [] => false
  | keyword :: rest =>
      if Py.contains keyword query_lower then true
      else any_keyword_in rest query_lower
  end.

Definition _check_severity (query : string) : bool :=
  let query_lower := Py.lower query in
  any_keyword_in SEVERITY_KEYWORDS query_lower.

Definition _get_severity_warning : string :=
  NL +:+ "🚨 **IMPORTANT - SEEK MEDICAL ATTENTION**" +:+ NL +:+
  NL +:+
  "Based on your symptoms, you should seek medical attention immediately. "
  +:+ NL +:+
  "Please contact your local emergency services or go to the nearest emergency room."
  +:+ NL +:+
  NL +:+
  MEDICAL_DISCLAIMER +:+ NL.

Definition chain_apology (message : string) : string :=
  "I apologize, but I encountered an error processing your query: "
  +:+ message +:+ NL +:+ NL +:+ MEDICAL_DISCLAIMER.

Definition invoke (self : MedicalRAGChain) (user_id query : string)
    (return_sources : bool) : M Response :=
  if _check_severity query then
    ret {| answer := _get_severity_warning;
           sources := [];
           severity_detected := true |}
  else
    docs <- search_vector_db (vector_db self) query (retriever_k self) ;;
    let context := Py.join (NL +:+ NL) (map page_content docs) in
    chat_history <- _format_chat_history self user_id ;;
    let sources :=
      map (fun doc => {| content := Py.take 200 (page_content doc);
                         metadata := doc_metadata doc |}) docs in
    let chain_input :=
      {| context := context;
         question := query;
         conversation_history := chat_history |} in
    log (Generated chain_input) ;;
    let answer :=
      match chain self chain_input with
      | Returned text => text
      | Failed message => chain_apology message
      end in
    ret {| answer := answer;
           sources := sources;
           severity_detected := false |}.

(** *** medical_chatbot.py *)

Definition generic_apology : string :=
  "I apologize, but I encountered an error. Please try again."
  +:+ NL +:+ NL +:+ MEDICAL_DISCLAIMER.

Definition _handle_user_input (self : MedicalChatbot) (user_input : string)
  : M string :=
  try_except
    (result <- invoke (rag_chain self) (cb_user_id self) user_input
                      (show_sources self) ;;
     let answer := answer result in
     save_conversation (memory_manager (rag_chain self)) (cb_user_id self)
                       user_input answer None ;;
     ret answer)
    (fun _ => true)
    (ret generic_apology).

(** *** Vocabulary of the statements *)

Definition tick (w : world) : world :=
  World (dirs w) (files w) (S (clock w)) (trace w).

Definition write_file (p : string) (j : json) (w : world) : world :=
  World (dirs w) (<[p := File (Parsed j) true]> (files w)) (clock w) (trace w).

Definition can_write (w : world) (p : string) : bool :=
  negb (is_dir w p) &&
  match files w !! p with
  | Some f => writable f
  | None => parent_exists w p
  end.

Definition default_preferences (user_id : string) : gmap string json :=
  dict [ ("name", JStr user_id);
         ("known_conditions", JList []);
         ("allergies", JList []) ].

Definition default_memory (user_id created_at : string) : gmap string json :=
  dict [ ("user_id", JStr user_id);
         ("created_at", JStr created_at);
         ("conversations", JList []);
         ("preferences", JDict (default_preferences user_id)) ].

Definition turn_entry (timestamp user_message bot_response : string)
    (metadata : option (gmap string json)) : json :=
  JDict (dict [ ("timestamp", JStr timestamp);
                ("user_message", JStr user_message);
                ("bot_response", JStr bot_response);
                ("metadata", JDict (default ∅ metadata)) ]).

(** The last [n] elements of [l], all of it when it is shorter. *)
Definition last_n {A} (n : nat) (l : list A) : list A :=
  drop (length l - n) l.

Definition chars (s : string) : list ascii := list_ascii_of_string s.

(** The list that [save_conversation] keeps. *)
Definition trim (l : list json) : list json :=
  if (Z.of_nat (length l) >? MAX_CONVERSATION_HISTORY)%Z
  then Py.slice_from (- MAX_CONVERSATION_HISTORY) l
  else l.

(** The operations of the store that act on one user's record. *)
Inductive store_call : Type :=
| LoadRecord
| Append (user_message bot_response : string)
         (metadata : option (gmap string json))
| History
| FormattedHistory (max_turns : Z)
| UpdatePreferences (patch : gmap string json)
| ReadPreferences
| Clear.

Inductive reply : Type :=
| NoValue
| Value (j : json)
| Text (s : string).

Definition run_call (self : MemoryManager) (user_id : string)
    (c : store_call) : M reply :=
  match c with
  | LoadRecord => j <- get_user_memory self user_id ;; ret (Value j)
  | Append user_message bot_response metadata =>
      save_conversation self user_id user_message bot_response metadata ;;
      ret NoValue
  | History => j <- get_conversation_history self user_id ;; ret (Value j)
  | FormattedHistory max_turns =>
      s <- get_formatted_history self user_id max_turns ;; ret (Text s)
  | UpdatePreferences patch =>
      update_user_preferences self user_id patch ;; ret NoValue
  | ReadPreferences => j <- get_user_preferences self user_id ;; ret (Value j)
  | Clear => clear_user_memory self user_id ;; ret NoValue
  end.

(** A computation leaves the observation [f] of the world as it found it. *)
Definition preserves {X A} (f : world -> X) (m : M A) : Prop :=
  forall w, f (snd (m w)) = f w.

(** The calls that only read. *)
Definition reads_only (c : store_call) : bool :=
  match c with
  | LoadRecord | History | FormattedHistory _ | ReadPreferences => true
  | Append _ _ _ | UpdatePreferences _ | Clear => false
  end.

(** The files other than [p]. *)
Definition other_files (p : string) (w : world) : gmap string file :=
  delete p (files w).

(** Two worlds that agree on the entry [p], the directories and the clock. *)
Definition same_at (p : string) (w1 w2 : world) : Prop :=
  files w1 !! p = files w2 !! p /\ dirs w1 = dirs w2 /\ clock w1 = clock w2.

(** A computation whose outcome is decided by the entry [p] alone. *)
Definition local_to {A} (p : string) (m : M A) : Prop :=
  forall w1 w2, same_at p w1 w2 ->
    fst (m w1) = fst (m w2) /\ same_at p (snd (m w1)) (snd (m w2)).

(** Every stored record keeps at most the configured number of turns. *)
Definition cap_respected (w : world) : Prop :=
  forall p f d l,
    files w !! p = Some f -> data f = Parsed (JDict d) ->
    d !! "conversations" = Some (JList l) ->
    (Z.of_nat (length l) <= MAX_CONVERSATION_HISTORY)%Z.

(** The world after one more call has been recorded. *)
Definition logged (e : event) (w : world) : world :=
  World (dirs w) (files w) (clock w) (trace w ++ [e]).

(** The names that [os.listdir d] returns. *)
Definition listing (d : string) (w : world) : list string :=
  omap (entry_name d) (elements (dom (files w)))
  ++ omap (subdir_name d) (elements (dirs w)).

(** A file name that the store gives to a record: a sanitized identifier
    followed by [.json]. *)
Definition store_written (name : string) : Prop :=
  exists s, name = s +:+ ".json" /\
            forall c, In c (chars s) -> safe_char c = true.

(** A turn whose answer is longer than the preview of 200 characters. *)
Definition long_answer (conv : json) : Prop :=
  exists b n, getitem conv "bot_response" = Ok b /\
              py_len b = Ok n /\ 200 < n.

(** A turn that [_format_chat_history] can render. *)
Definition chat_turn_ok (conv : json) : bool :=
  match conv with
  | JDict e =>
      match e !! "user_message", e !! "bot_response" with
      | Some _, Some (JStr _ | JList _) => true
      | _, _ => false
      end
  | _ => false
  end.

(** A record with a list of conversations whose turns pass [turn_ok]. *)
Definition record_ok (turn_ok : json -> bool) (j : json) : bool :=
  match j with
  | JDict d =>
      match d !! "conversations" with
      | Some (JList h) => forallb turn_ok h
      | _ => false
      end
  | _ => false
  end.

(** The user's file can be written, and it is absent, or not JSON, or not
    readable, or holds a record that passes [record_ok]. *)
Definition store_ready (turn_ok : json -> bool) (self : MemoryManager)
    (user_id : string) (w : world) : bool :=
  let p := _get_user_file_path self user_id in
  can_write w p &&
  match files w !! p with
  | Some f =>
      match data f with
      | Parsed j => record_ok turn_ok j
      | NotJson | Unreadable => true
      | NotUtf8 => false
      end
  | None => true
  end.

Definition can_append : MemoryManager -> string -> world -> bool :=
  store_ready (fun _ => true).

Definition can_chat : MemoryManager -> string -> world -> bool :=
  store_ready chat_turn_ok.

(** *** Sample inputs *)

Definition sample_manager : MemoryManager :=
  {| memory_path := DEFAULT_MEMORY_PATH |}.

Definition sample_chain : MedicalRAGChain :=
  {| chain := fun _ => Returned "Rest and drink water.";
     vector_db := None;
     memory_manager := sample_manager;
     retriever_k := DEFAULT_RETRIEVER_K |}.

(** A clock and a rendering of non-string values for the sample runs; the
    sample records hold strings only, so the rendering is never asked. *)
Definition sample_stamp (n : nat) : string :=
  "2026-01-01T12:00:" +:+
  String (ascii_of_nat (48 + n / 10 mod 6))
    (String (ascii_of_nat (48 + n mod 10)) EmptyString).

Definition sample_repr (j : json) : string := "<value>".

Definition sample_chatbot : MedicalChatbot :=
  {| rag_chain := sample_chain; cb_user_id := "alice"; show_sources := false |}.

Definition bob_chatbot : MedicalChatbot :=
  {| rag_chain := sample_chain; cb_user_id := "bob"; show_sources := false |}.

(** A chatbot whose chain fails on every input. *)
Definition failing_chatbot : MedicalChatbot :=
  {| rag_chain :=
       {| chain := fun _ => Failed "Connection error.";
          vector_db := None;
          memory_manager := sample_manager;
          retriever_k := DEFAULT_RETRIEVER_K |};
     cb_user_id := "alice";
     show_sources := false |}.

(** The memory directory right after [MemoryManager.__init__]. *)
Definition empty_store : world := World {[ "memory/users/" ]} ∅ 0 [].

(** The record of [bob] holds bytes that are not UTF-8. *)
Definition undecodable_store : world :=
  World {[ "memory/users/" ]}
        {[ "memory/users/bob.json" := File NotUtf8 true ]} 0 [].

(** The record of [alice] holds one turn with a two-letter answer. *)
Definition short_reply_store : world :=
  World {[ "memory/users/" ]}
        {[ "memory/users/alice.json" :=
             File (Parsed (JDict
               (<["conversations" :=
                    JList [turn_entry "2026-01-01T10:00:00" "hi" "ok" None]]>
                  (default_memory "alice" "2026-01-01T09:00:00")))) true ]}
        0 [].

(** The memory directory holds a file that the store did not write. *)
Definition foreign_file_store : world :=
  World {[ "memory/users/" ]}
        {[ "memory/users/a b.json" := File NotJson true ]} 0 [].

(** *** Facts about the string built-ins *)

Lemma str_app_nil (t : string) : EmptyString +:+ t = t.
Proof. reflexivity. Qed.

Lemma str_app_cons (c : ascii) (s t : string) :
  String c s +:+ t = String c (s +:+ t).
Proof. reflexivity. Qed.

Ltac str_simpl :=
  simpl; rewrite ?str_app_cons, ?str_app_nil; simpl.
Ltac str_simpl_in H :=
  simpl in H; rewrite ?str_app_cons, ?str_app_nil in H; simpl in H.

Lemma str_app_nil_r (s : string) : s +:+ EmptyString = s.
Proof. induction s as [|c s IH]; str_simpl; congruence. Qed.

Lemma str_app_assoc (a b c : string) : (a +:+ b) +:+ c = a +:+ b +:+ c.
Proof. induction a as [|x a IH]; str_simpl; congruence. Qed.

Lemma startswith_spec (p s : string) :
  Py.startswith p s = true <-> exists t, s = p +:+ t.
Proof.
  revert s. induction p as [|a p IH]; intros s; simpl.
  - split; [eauto | done].
  - destruct s as [|b s].
    + split; [done | intros [t Ht]; discriminate].
    + rewrite andb_true_iff, Ascii.eqb_eq, IH. split.
      * intros [-> [t ->]]. by exists t.
      * intros [t Ht]. str_simpl_in Ht. injection Ht as -> ->. eauto.
Qed.

Lemma contains_spec (needle hay : string) :
  Py.contains needle hay = true <->
  exists pre post, hay = pre +:+ needle +:+ post.
Proof.
  induction hay as [|c hay IH]; simpl.
  - rewrite startswith_spec. split.
    + intros [t Ht]. exists EmptyString, t. done.
    + intros [pre [post H]]. destruct pre; [|discriminate].
      str_simpl_in H. eauto.
  - rewrite orb_true_iff, IH, startswith_spec. split.
    + intros [[t Ht] | [pre [post Ht]]].
      * exists EmptyString, t. done.
      * exists (String c pre), post. str_simpl. congruence.
    + intros [pre [post H]]. destruct pre as [|x pre]; str_simpl_in H.
      * left. eauto.
      * right. injection H as _ ->. eauto.
Qed.

Lemma lower_app (a b : string) :
  Py.lower (a +:+ b) = Py.lower a +:+ Py.lower b.
Proof. induction a as [|x a IH]; str_simpl; congruence. Qed.

Lemma lower_app_inv (s a b : string) :
  Py.lower s = a +:+ b ->
  exists a' b', s = a' +:+ b' /\ Py.lower a' = a /\ Py.lower b' = b.
Proof.
  revert s. induction a as [|x a IH]; intros s H; str_simpl_in H.
  - exists EmptyString, s. done.
  - destruct s as [|c s]; [discriminate|]. str_simpl_in H.
    injection H as <- H. destruct (IH _ H) as (a' & b' & -> & <- & <-).
    exists (String c a'), b'. done.
Qed.

Lemma any_keyword_in_spec (keywords : list string) (s : string) :
  any_keyword_in keywords s = true <->
  exists keyword, In keyword keywords /\ Py.contains keyword s = true.
Proof.
  induction keywords as [|k ks IH]; simpl.
  - split; [done | intros [? [[] _]]].
  - destruct (Py.contains k s) eqn:E.
    + split; [eauto | done].
    + rewrite IH. split.
      * intros [kw [? ?]]. eauto.
      * intros [kw [[<- | ?] ?]]; [congruence | eauto].
Qed.

Lemma severity_keywords_lowercase (keyword : string) :
  In keyword SEVERITY_KEYWORDS -> Py.lower keyword = keyword.
Proof.
  unfold SEVERITY_KEYWORDS. simpl.
  intros H. repeat (destruct H as [<- | H]; [reflexivity|]). destruct H.
Qed.


Lemma safe_char_spec (c : ascii) :
  safe_char c = true <->
  Py.isalnum c = true \/ c = "-"%char \/ c = "_"%char.
Proof.
  unfold safe_char. cbn [Py.contains Py.startswith].
  rewrite ?andb_true_r, ?orb_false_r, !orb_true_iff, !Ascii.eqb_eq.
  tauto.
Qed.

Lemma filter_chars_In (keep : ascii -> bool) (s : string) (c : ascii) :
  In c (chars (Py.filter_chars keep s)) <-> In c (chars s) /\ keep c = true.
Proof.
  induction s as [|x s IH]; simpl; [tauto|].
  destruct (keep x) eqn:E; simpl; rewrite IH; split.
  - intros [<- | [? ?]]; auto.
  - intros [[<- | ?] ?]; auto.
  - intros [? ?]; auto.
  - intros [[<- | ?] ?]; [congruence | auto].
Qed.

Lemma contains_char_false (x : ascii) (s : string) :
  ~ In x (chars s) -> Py.contains (String x EmptyString) s = false.
Proof.
  induction s as [|c s IH]; [done|].
  intros H. change (chars (String c s)) with (c :: chars s) in H.
  simpl in H. cbn [Py.contains Py.startswith].
  rewrite IH by tauto. rewrite andb_true_r, orb_false_r.
  apply Ascii.eqb_neq. intros ->. tauto.
Qed.

Lemma path_join_dir_key (d n : string) :
  Py.startswith "/" n = false ->
  Py.path_join d n = dir_key d +:+ n.
Proof.
  intros H. unfold dir_key, Py.path_join. rewrite H. simpl.
  destruct (_ || _).
  - by rewrite str_app_nil_r.
  - by rewrite !str_app_assoc.
Qed.

Lemma strip_prefix_app (a b : string) : strip_prefix a (a +:+ b) = Some b.
Proof.
  induction a as [|c a IH]; str_simpl; [by destruct b|].
  by rewrite Ascii.eqb_refl.
Qed.

Lemma startswith_contains_false (n s : string) :
  Py.contains n s = false -> Py.startswith n s = false.
Proof.
  destruct s; simpl; [done|]. intros H. by apply orb_false_iff in H as [? _].
Qed.

Lemma entry_name_path_join (d n : string) :
  n <> EmptyString -> Py.contains "/" n = false ->
  entry_name d (Py.path_join d n) = Some n.
Proof.
  intros Hne Hs.
  rewrite path_join_dir_key by by apply startswith_contains_false.
  unfold entry_name. rewrite strip_prefix_app, Hs.
  destruct (String.eqb_spec n EmptyString); done.
Qed.

Lemma dir_key_shape (d : string) :
  dir_key d = EmptyString \/ Py.endswith "/" (dir_key d) = true.
Proof.
  unfold dir_key, Py.path_join. simpl.
  destruct (String.eqb_spec d EmptyString) as [->|Hd]; simpl; [by left|].
  destruct (Py.endswith "/" d) eqn:E; rewrite ?str_app_nil_r; [by right|].
  right. clear Hd E. induction d as [|c d IH]; [done|].
  str_simpl. rewrite IH. apply orb_true_r.
Qed.

Lemma contains_app_r (n a b : string) :
  Py.contains n b = true -> Py.contains n (a +:+ b) = true.
Proof.
  rewrite !contains_spec. intros (pre & post & ->).
  exists (a +:+ pre), post. by rewrite str_app_assoc.
Qed.

Lemma contains_app_l (n a b : string) :
  Py.contains n a = true -> Py.contains n (a +:+ b) = true.
Proof.
  rewrite !contains_spec. intros (pre & post & ->).
  exists pre, (post +:+ b). by rewrite !str_app_assoc.
Qed.

Lemma endswith_contains (p s : string) :
  Py.endswith p s = true -> Py.contains p s = true.
Proof.
  induction s as [|c s IH]; simpl.
  - intros ->%String.eqb_eq. done.
  - intros [->%String.eqb_eq | H]%orb_true_iff.
    + apply orb_true_iff. left. apply startswith_spec.
      exists EmptyString. by rewrite str_app_nil_r.
    + rewrite IH by done. apply orb_true_r.
Qed.

Lemma parent_key_app (a n : string) :
  a = EmptyString \/ Py.endswith "/" a = true ->
  Py.contains "/" n = false ->
  parent_key (a +:+ n) = a.
Proof.
  intros Ha Hn. induction a as [|c a IH].
  - str_simpl. destruct n as [|x n]; [done|].
    cbn [parent_key]. by rewrite Hn.
  - destruct Ha as [?|Ha]; [done|]. rewrite str_app_cons.
    cbn [parent_key].
    replace (Py.contains "/" (String c (a +:+ n))) with true.
    2:{ symmetry. apply (contains_app_l _ (String c a) n).
        by apply endswith_contains. }
    f_equal. apply IH.
    destruct a as [|y a]; [by left|]. right.
    cbn [Py.endswith] in Ha. fold (Py.endswith "/" (String y a)) in Ha.
    apply orb_true_iff in Ha as [Ha|Ha]; [|done].
    apply String.eqb_eq in Ha. discriminate.
Qed.

Lemma parent_key_path_join (d n : string) :
  Py.contains "/" n = false ->
  parent_key (Py.path_join d n) = dir_key d.
Proof.
  intros Hn. rewrite path_join_dir_key by by apply startswith_contains_false.
  apply parent_key_app; [apply dir_key_shape | done].
Qed.

Lemma chars_app (a b : string) : chars (a +:+ b) = chars a ++ chars b.
Proof.
  induction a as [|c a IH]; [done|]. rewrite str_app_cons.
  unfold chars in *. simpl. by rewrite IH.
Qed.

Lemma sanitized_has_no (x : ascii) (user_id : string) :
  safe_char x = false ->
  ~ In x (chars (Py.filter_chars safe_char user_id)).
Proof. intros Hx [_ H]%filter_chars_In. congruence. Qed.

Lemma sanitized_filename_has_no_slash (user_id : string) :
  Py.contains "/" (Py.filter_chars safe_char user_id +:+ ".json") = false.
Proof.
  apply contains_char_false. rewrite chars_app. intros [H|H]%in_app_or.
  - by apply sanitized_has_no in H.
  - simpl in H. intuition discriminate.
Qed.

Lemma sanitized_filename_nonempty (user_id : string) :
  Py.filter_chars safe_char user_id +:+ ".json" <> EmptyString.
Proof.
  intros H. apply (f_equal chars) in H. rewrite chars_app in H.
  by apply app_eq_nil in H as [_ ?].
Qed.

Lemma user_file_entry (self : MemoryManager) (user_id : string) :
  entry_name (memory_path self) (_get_user_file_path self user_id)
  = Some (Py.filter_chars safe_char user_id +:+ ".json").
Proof.
  apply entry_name_path_join;
    [apply sanitized_filename_nonempty | apply sanitized_filename_has_no_slash].
Qed.

(** *** Runs of the store operations *)

Lemma default_memory_conversations (user_id created_at : string) :
  default_memory user_id created_at !! "conversations" = Some (JList []).
Proof. reflexivity. Qed.

Lemma default_memory_preferences (user_id created_at : string) :
  default_memory user_id created_at !! "preferences" =
  Some (JDict (default_preferences user_id)).
Proof. reflexivity. Qed.

Lemma create_default_memory_run (user_id : string) (w : world) :
  _create_default_memory user_id w =
  (Ok (JDict (default_memory user_id (stamp (clock w)))), tick w).
Proof. reflexivity. Qed.

(** What loading does, by the state of the user's file. *)
Lemma get_user_memory_run (self : MemoryManager) (user_id : string)
    (w : world) :
  get_user_memory self user_id w =
  match files w !! _get_user_file_path self user_id with
  | Some f =>
      match data f with
      | Parsed j => (Ok j, w)
      | NotUtf8 => (Raise UnicodeDecodeError, w)
      | NotJson | Unreadable => _create_default_memory user_id w
      end
  | None => _create_default_memory user_id w
  end.
Proof.
  unfold get_user_memory, bind, os_path_exists, try_except,
    json_load_file.
  destruct (files w !! _) as [f|] eqn:E; simpl.
  - rewrite E. by destruct (data f).
  - destruct (is_dir w _); [rewrite E|]; done.
Qed.

Lemma json_dump_file_run (p : string) (j : json) (w : world) :
  json_dump_file p j w =
  if can_write w p then (Ok tt, write_file p j w) else (Raise OSError, w).
Proof.
  unfold json_dump_file, can_write, write_file.
  destruct (is_dir w p); simpl; [done|].
  destruct (files w !! p) as [f|]; [by destruct (writable f)|].
  by destruct (parent_exists w p).
Qed.

Lemma can_write_after_write (p : string) (j : json) (w : world) :
  can_write w p = true -> can_write (write_file p j w) p = true.
Proof.
  unfold can_write, write_file, is_dir. simpl.
  intros [H _]%andb_true_iff. rewrite H, lookup_insert_eq. done.
Qed.

(** Reading back the record that was just written. *)
Lemma get_user_memory_written (self : MemoryManager) (user_id : string)
    (j : json) (w : world) :
  get_user_memory self user_id
    (write_file (_get_user_file_path self user_id) j w) =
  (Ok j, write_file (_get_user_file_path self user_id) j w).
Proof.
  rewrite get_user_memory_run. unfold write_file at 1. simpl.
  by rewrite lookup_insert_eq.
Qed.

Lemma trim_last_n (l : list json) :
  (1 <= MAX_CONVERSATION_HISTORY)%Z ->
  trim l = last_n (Z.to_nat MAX_CONVERSATION_HISTORY) l.
Proof.
  intros HM. unfold trim, last_n, Py.slice_from.
  destruct (Z.gtb_spec (Z.of_nat (length l)) MAX_CONVERSATION_HISTORY).
  - replace (- MAX_CONVERSATION_HISTORY <? 0)%Z with true
      by (symmetry; apply Z.ltb_lt; lia).
    f_equal. lia.
  - replace (length l - Z.to_nat MAX_CONVERSATION_HISTORY) with 0 by lia.
    done.
Qed.

Lemma last_n_snoc {A} (n : nat) (l : list A) (x : A) :
  1 <= n -> last (last_n n (l ++ [x])) = Some x.
Proof.
  intros Hn. unfold last_n. rewrite length_app. simpl.
  rewrite drop_app_le by lia. by rewrite last_snoc.
Qed.

Lemma last_n_length {A} (n : nat) (l : list A) : length (last_n n l) <= n.
Proof. unfold last_n. rewrite length_drop. lia. Qed.

(** What appending does once the record has loaded as a dict. *)
Lemma save_conversation_run (self : MemoryManager)
    (user_id user_message bot_response : string)
    (metadata : option (gmap string json)) (w w1 : world)
    (d : gmap string json) (h : list json) :
  get_user_memory self user_id w = (Ok (JDict d), w1) ->
  d !! "conversations" = Some (JList h) ->
  save_conversation self user_id user_message bot_response metadata w =
  json_dump_file (_get_user_file_path self user_id)
    (JDict (<["conversations" :=
               JList (trim (h ++ [turn_entry (stamp (clock w1)) user_message
                                     bot_response metadata]))]> d))
    (tick w1).
Proof.
  intros Hload Hc. unfold save_conversation, bind at 1.
  rewrite Hload. unfold bind at 1, utcnow_isoformat at 1.
  unfold bind at 1, lift at 1, getitem. rewrite Hc.
  unfold bind at 1, lift at 1, py_append.
  unfold bind at 1, lift at 1, setitem.
  unfold bind at 1, lift at 1, py_len.
  fold (tick w1).
  fold (turn_entry (stamp (clock w1)) user_message bot_response metadata).
  unfold trim. destruct (_ >? _)%Z.
  - unfold bind, lift, slice_from. by rewrite insert_insert_eq.
  - unfold bind, ret. done.
Qed.


(** *** What the operations leave alone *)

Lemma preserves_ret {X A} (f : world -> X) (a : A) : preserves f (ret a).
Proof. by intros w. Qed.

Lemma preserves_lift {X A} (f : world -> X) (r : result A) :
  preserves f (lift r).
Proof. by intros w. Qed.

Lemma preserves_bind {X A B} (f : world -> X) (m : M A) (k : A -> M B) :
  preserves f m -> (forall a, preserves f (k a)) -> preserves f (bind m k).
Proof.
  intros Hm Hk w. unfold bind. specialize (Hm w).
  destruct (m w) as [[a|e] w1]; simpl in *; [|done].
  by rewrite Hk.
Qed.

Lemma preserves_try_except {X A} (f : world -> X) (m h : M A)
    (caught : exn -> bool) :
  preserves f m -> preserves f h -> preserves f (try_except m caught h).
Proof.
  intros Hm Hh w. unfold try_except. specialize (Hm w).
  destruct (m w) as [[a|e] w1]; simpl in *; [done|].
  destruct (caught e); simpl; [by rewrite Hh | done].
Qed.

Lemma preserves_if {X A} (f : world -> X) (b : bool) (m1 m2 : M A) :
  preserves f m1 -> preserves f m2 -> preserves f (if b then m1 else m2).
Proof. by destruct b. Qed.

Lemma preserves_utcnow {X} (f : world -> X) :
  (forall w, f (tick w) = f w) -> preserves f utcnow_isoformat.
Proof. intros H w. apply H. Qed.

Lemma preserves_os_path_exists {X} (f : world -> X) (p : string) :
  preserves f (os_path_exists p).
Proof. by intros w. Qed.

Lemma preserves_json_load_file {X} (f : world -> X) (p : string) :
  preserves f (json_load_file p).
Proof.
  intros w. unfold json_load_file.
  destruct (files w !! p) as [[[] ?]|]; done.
Qed.

Lemma preserves_json_dump_file {X} (f : world -> X) (p : string) (j : json) :
  (forall w, f (write_file p j w) = f w) -> preserves f (json_dump_file p j).
Proof.
  intros H w. rewrite json_dump_file_run. destruct (can_write w p); simpl; auto.
Qed.

Lemma other_files_tick (p : string) (w : world) :
  other_files p (tick w) = other_files p w.
Proof. done. Qed.

Lemma other_files_write (p : string) (j : json) (w : world) :
  other_files p (write_file p j w) = other_files p w.
Proof. unfold other_files, write_file. simpl. apply delete_insert_eq. Qed.

Ltac preserves_step :=
  first
    [ apply preserves_ret
    | apply preserves_lift
    | apply preserves_os_path_exists
    | apply preserves_json_load_file
    | apply preserves_utcnow; intros; reflexivity
    | apply preserves_json_dump_file; intros;
      first [ reflexivity | apply other_files_write ]
    | apply preserves_try_except
    | apply preserves_if
    | apply preserves_bind; [|intros ?] ].

Ltac preserves_auto := repeat preserves_step.

Section Preserved.
Context {X : Type} (f : world -> X).
Context (self : MemoryManager) (user_id : string).
Hypothesis f_tick : forall w, f (tick w) = f w.

Lemma preserves_create_default_memory (name : string) :
  preserves f (_create_default_memory name).
Proof.
  unfold _create_default_memory.
  apply preserves_bind; [by apply preserves_utcnow | intros].
  apply preserves_ret.
Qed.

Lemma preserves_get_user_memory : preserves f (get_user_memory self user_id).
Proof.
  unfold get_user_memory.
  apply preserves_bind; [apply preserves_os_path_exists | intros found].
  apply preserves_if; [apply preserves_try_except|];
    auto using preserves_json_load_file, preserves_create_default_memory.
Qed.

Lemma preserves_get_conversation_history :
  preserves f (get_conversation_history self user_id).
Proof.
  unfold get_conversation_history.
  apply preserves_bind; [apply preserves_get_user_memory | intros].
  apply preserves_lift.
Qed.

Lemma preserves_get_user_preferences :
  preserves f (get_user_preferences self user_id).
Proof.
  unfold get_user_preferences.
  apply preserves_bind; [apply preserves_get_user_memory | intros].
  apply preserves_lift.
Qed.

Lemma preserves_get_formatted_history (max_turns : Z) :
  preserves f (get_formatted_history self user_id max_turns).
Proof.
  unfold get_formatted_history.
  apply preserves_bind; [apply preserves_get_conversation_history | intros].
  preserves_auto.
Qed.

Lemma preserves_read_call (c : store_call) :
  reads_only c = true -> preserves f (run_call self user_id c).
Proof.
  destruct c; try discriminate; intros _; simpl;
    (apply preserves_bind; [|intros; apply preserves_ret]).
  - apply preserves_get_user_memory.
  - apply preserves_get_conversation_history.
  - apply preserves_get_formatted_history.
  - apply preserves_get_user_preferences.
Qed.

Hypothesis f_write :
  forall j w, f (write_file (_get_user_file_path self user_id) j w) = f w.

Lemma preserves_save_conversation (user_message bot_response : string)
    (metadata : option (gmap string json)) :
  preserves f
    (save_conversation self user_id user_message bot_response metadata).
Proof.
  unfold save_conversation.
  apply preserves_bind; [apply preserves_get_user_memory | intros].
  apply preserves_bind; [by apply preserves_utcnow | intros].
  do 5 (apply preserves_bind; [preserves_auto | intros]).
  by apply preserves_json_dump_file.
Qed.

Lemma preserves_update_user_preferences (patch : gmap string json) :
  preserves f (update_user_preferences self user_id patch).
Proof.
  unfold update_user_preferences.
  apply preserves_bind; [apply preserves_get_user_memory | intros].
  do 3 (apply preserves_bind; [preserves_auto | intros]).
  by apply preserves_json_dump_file.
Qed.

Lemma preserves_clear_user_memory :
  preserves f (clear_user_memory self user_id).
Proof.
  unfold clear_user_memory.
  apply preserves_bind; [apply preserves_create_default_memory | intros].
  by apply preserves_json_dump_file.
Qed.

Lemma preserves_run_call (c : store_call) :
  preserves f (run_call self user_id c).
Proof.
  destruct (reads_only c) eqn:E; [by apply preserves_read_call|].
  destruct c; try discriminate; simpl;
    (apply preserves_bind; [|intros; apply preserves_ret]).
  - apply preserves_save_conversation.
  - apply preserves_update_user_preferences.
  - apply preserves_clear_user_memory.
Qed.

End Preserved.


(** *** What decides the outcome of an operation *)

Lemma local_ret {A} (p : string) (a : A) : local_to p (ret a).
Proof. by intros w1 w2 H. Qed.

Lemma local_lift {A} (p : string) (r : result A) : local_to p (lift r).
Proof. by intros w1 w2 H. Qed.

Lemma local_bind {A B} (p : string) (m : M A) (k : A -> M B) :
  local_to p m -> (forall a, local_to p (k a)) -> local_to p (bind m k).
Proof.
  intros Hm Hk w1 w2 H. unfold bind. destruct (Hm w1 w2 H) as [Hr Hw].
  destruct (m w1) as [r1 v1], (m w2) as [r2 v2]. simpl in *. subst r2.
  destruct r1 as [a|e]; simpl; [by apply Hk | done].
Qed.

Lemma local_try_except {A} (p : string) (m h : M A) (caught : exn -> bool) :
  local_to p m -> local_to p h -> local_to p (try_except m caught h).
Proof.
  intros Hm Hh w1 w2 H. unfold try_except. destruct (Hm w1 w2 H) as [Hr Hw].
  destruct (m w1) as [r1 v1], (m w2) as [r2 v2]. simpl in *. subst r2.
  destruct r1 as [a|e]; simpl; [done|].
  destruct (caught e); simpl; [by apply Hh | done].
Qed.

Lemma local_if {A} (p : string) (b : bool) (m1 m2 : M A) :
  local_to p m1 -> local_to p m2 -> local_to p (if b then m1 else m2).
Proof. by destruct b. Qed.

Lemma local_utcnow (p : string) : local_to p utcnow_isoformat.
Proof.
  intros w1 w2 (Hf & Hd & Hc). unfold utcnow_isoformat, same_at. simpl.
  by rewrite Hf, Hd, Hc.
Qed.

Lemma local_os_path_exists (p : string) : local_to p (os_path_exists p).
Proof.
  intros w1 w2 (Hf & Hd & Hc). unfold os_path_exists, is_dir, same_at. simpl.
  by rewrite Hf, Hd.
Qed.

Lemma local_json_load_file (p : string) : local_to p (json_load_file p).
Proof.
  intros w1 w2 (Hf & Hd & Hc). unfold json_load_file. rewrite Hf.
  destruct (files w2 !! p) as [[[] ?]|] eqn:E; simpl; repeat split;
    congruence.
Qed.

Lemma local_json_dump_file (p : string) (j : json) :
  local_to p (json_dump_file p j).
Proof.
  intros w1 w2 (Hf & Hd & Hc). rewrite !json_dump_file_run.
  assert (can_write w1 p = can_write w2 p) as ->.
  { unfold can_write, is_dir, parent_exists. by rewrite Hf, Hd. }
  destruct (can_write w2 p); simpl; [|done].
  split; [done|]. unfold same_at, write_file. simpl.
  by rewrite !lookup_insert_eq.
Qed.

Ltac local_step :=
  first
    [ apply local_ret
    | apply local_lift
    | apply local_utcnow
    | apply local_os_path_exists
    | apply local_json_load_file
    | apply local_json_dump_file
    | apply local_try_except
    | apply local_if
    | apply local_bind; [|intros ?] ].

Lemma local_run_call (self : MemoryManager) (user_id : string)
    (c : store_call) :
  local_to (_get_user_file_path self user_id) (run_call self user_id c).
Proof.
  destruct c; simpl;
    unfold get_formatted_history, get_conversation_history,
      get_user_preferences, save_conversation, update_user_preferences,
      clear_user_memory, get_user_memory, _create_default_memory;
    repeat local_step.
Qed.

(** *** Appending a turn *)

Lemma get_user_memory_files (self : MemoryManager) (user_id : string)
    (w : world) :
  files (snd (get_user_memory self user_id w)) = files w /\
  dirs (snd (get_user_memory self user_id w)) = dirs w /\
  trace (snd (get_user_memory self user_id w)) = trace w.
Proof.
  repeat split.
  - by apply (preserves_get_user_memory files).
  - by apply (preserves_get_user_memory dirs).
  - by apply (preserves_get_user_memory trace).
Qed.

Lemma can_write_files (w1 w2 : world) (p : string) :
  files w1 = files w2 -> dirs w1 = dirs w2 ->
  can_write w1 p = can_write w2 p.
Proof.
  intros Hf Hd. unfold can_write, is_dir, parent_exists. by rewrite Hf, Hd.
Qed.

(** How [save_conversation] can end. *)
Lemma save_conversation_outcome (self : MemoryManager)
    (user_id user_message bot_response : string)
    (metadata : option (gmap string json)) (w : world) :
  let run := save_conversation self user_id user_message bot_response
               metadata w in
  (exists e, fst run = Raise e /\ files (snd run) = files w) \/
  (exists d h w1,
     get_user_memory self user_id w = (Ok (JDict d), w1) /\
     d !! "conversations" = Some (JList h) /\
     can_write w (_get_user_file_path self user_id) = true /\
     run = (Ok tt,
            write_file (_get_user_file_path self user_id)
              (JDict (<["conversations" :=
                 JList (trim (h ++ [turn_entry (stamp (clock w1)) user_message
                                      bot_response metadata]))]> d))
              (tick w1))).
Proof.
  intros run. subst run.
  destruct (get_user_memory_files self user_id w) as (Hf & Hd & _).
  destruct (get_user_memory self user_id w) as [[j|e] w1] eqn:Hload;
    simpl in Hf, Hd.
  2:{ left. exists e. unfold save_conversation, bind. by rewrite Hload. }
  destruct j as [| | | | |d];
    try (left; exists TypeError; unfold save_conversation, bind;
         rewrite Hload; simpl; done).
  destruct (d !! "conversations") as [x|] eqn:Hc.
  2:{ left. exists KeyError. unfold save_conversation, bind.
      rewrite Hload. simpl. rewrite Hc. done. }
  destruct x as [| | | |h|];
    try (left; exists AttributeError; unfold save_conversation, bind;
         rewrite Hload; simpl; rewrite Hc; done).
  rewrite (save_conversation_run _ _ _ _ _ _ _ _ _ Hload Hc).
  rewrite json_dump_file_run.
  rewrite (can_write_files (tick w1) w) by done.
  destruct (can_write w _) eqn:Hw.
  - right. exists d, h, w1. done.
  - left. exists OSError. done.
Qed.

Lemma update_user_preferences_outcome (self : MemoryManager)
    (user_id : string) (patch : gmap string json) (w : world) :
  let run := update_user_preferences self user_id patch w in
  (exists e, fst run = Raise e /\ files (snd run) = files w) \/
  (exists d current w1,
     get_user_memory self user_id w = (Ok (JDict d), w1) /\
     d !! "preferences" = Some (JDict current) /\
     can_write w (_get_user_file_path self user_id) = true /\
     run = (Ok tt,
            write_file (_get_user_file_path self user_id)
              (JDict (<["preferences" := JDict (patch ∪ current)]> d)) w1)).
Proof.
  intros run. subst run.
  destruct (get_user_memory_files self user_id w) as (Hf & Hd & _).
  unfold update_user_preferences, bind.
  destruct (get_user_memory self user_id w) as [[j|e] w1] eqn:Hload;
    simpl in Hf, Hd.
  2:{ left. by exists e. }
  destruct j as [| | | | |d]; try (left; exists TypeError; done).
  simpl. destruct (d !! "preferences") as [x|] eqn:Hc.
  2:{ left. by exists KeyError. }
  destruct x as [| | | | |current]; try (left; exists AttributeError; done).
  simpl. rewrite json_dump_file_run.
  rewrite (can_write_files w1 w) by done.
  destruct (can_write w _) eqn:Hw.
  - right. exists d, current, w1. done.
  - left. exists OSError. done.
Qed.

Lemma clear_user_memory_run (self : MemoryManager) (user_id : string)
    (w : world) :
  clear_user_memory self user_id w =
  if can_write w (_get_user_file_path self user_id)
  then (Ok tt,
        write_file (_get_user_file_path self user_id)
          (JDict (default_memory user_id (stamp (clock w)))) (tick w))
  else (Raise OSError, tick w).
Proof.
  unfold clear_user_memory, bind. rewrite create_default_memory_run.
  rewrite json_dump_file_run. by rewrite (can_write_files (tick w) w).
Qed.

Lemma get_conversation_history_written (self : MemoryManager)
    (user_id : string) (d : gmap string json) (w : world) :
  get_conversation_history self user_id
    (write_file (_get_user_file_path self user_id) (JDict d) w) =
  (Ok (match d !! "conversations" with Some x => x | None => JList [] end),
   write_file (_get_user_file_path self user_id) (JDict d) w).
Proof.
  unfold get_conversation_history, bind.
  by rewrite get_user_memory_written.
Qed.

Lemma cap_respected_files (w1 w2 : world) :
  files w1 = files w2 -> cap_respected w1 -> cap_respected w2.
Proof. intros Hf H p f d l. rewrite <- Hf. apply H. Qed.

Lemma cap_respected_write (p : string) (d : gmap string json) (w : world) :
  (forall l, d !! "conversations" = Some (JList l) ->
             (Z.of_nat (length l) <= MAX_CONVERSATION_HISTORY)%Z) ->
  cap_respected w -> cap_respected (write_file p (JDict d) w).
Proof.
  intros Hd Hw q f d' l. unfold write_file. simpl.
  destruct (decide (p = q)) as [->|Hne].
  - rewrite lookup_insert_eq. intros [= <-]. simpl. intros [= <-]. apply Hd.
  - rewrite lookup_insert_ne by done. apply Hw.
Qed.

Lemma trim_length (l : list json) :
  (1 <= MAX_CONVERSATION_HISTORY)%Z ->
  (Z.of_nat (length (trim l)) <= MAX_CONVERSATION_HISTORY)%Z.
Proof.
  intros HM. rewrite trim_last_n by done.
  pose proof (last_n_length (Z.to_nat MAX_CONVERSATION_HISTORY) l). lia.
Qed.

(** The turns of a record that loaded are within the cap when the stored
    ones are. *)
Lemma loaded_within_cap (self : MemoryManager) (user_id : string)
    (w w1 : world) (d : gmap string json) (l : list json) :
  (0 <= MAX_CONVERSATION_HISTORY)%Z ->
  cap_respected w ->
  get_user_memory self user_id w = (Ok (JDict d), w1) ->
  d !! "conversations" = Some (JList l) ->
  (Z.of_nat (length l) <= MAX_CONVERSATION_HISTORY)%Z.
Proof.
  intros HM Hw. rewrite get_user_memory_run.
  assert (forall w0,
    _create_default_memory user_id w = (Ok (JDict d), w0) ->
    d !! "conversations" = Some (JList l) ->
    (Z.of_nat (length l) <= MAX_CONVERSATION_HISTORY)%Z) as Hdef.
  { rewrite create_default_memory_run. intros w0 [= <- _].
    rewrite default_memory_conversations. intros [= <-]. simpl. lia. }
  destruct (files w !! _) as [f|] eqn:Hf; [|by apply Hdef].
  destruct (data f) eqn:Hdata; try (by apply Hdef); [|done].
  intros [= -> _] Hl. eapply Hw; eauto.
Qed.

(** *** A store that is ready *)

Lemma store_ready_files (turn_ok : json -> bool) (self : MemoryManager)
    (user_id : string) (w1 w2 : world) :
  files w1 = files w2 -> dirs w1 = dirs w2 ->
  store_ready turn_ok self user_id w1 = store_ready turn_ok self user_id w2.
Proof.
  intros Hf Hd. unfold store_ready.
  by rewrite (can_write_files w1 w2), Hf.
Qed.

Lemma store_ready_loads (turn_ok : json -> bool) (self : MemoryManager)
    (user_id : string) (w : world) :
  store_ready turn_ok self user_id w = true ->
  exists d h w1,
    get_user_memory self user_id w = (Ok (JDict d), w1) /\
    d !! "conversations" = Some (JList h) /\
    forallb turn_ok h = true /\
    can_write w (_get_user_file_path self user_id) = true /\
    files w1 = files w /\ dirs w1 = dirs w /\ trace w1 = trace w.
Proof.
  unfold store_ready. intros [Hw Hf]%andb_true_iff.
  rewrite get_user_memory_run.
  assert (exists d h w1,
    _create_default_memory user_id w = (Ok (JDict d), w1) /\
    d !! "conversations" = Some (JList h) /\
    forallb turn_ok h = true /\
    can_write w (_get_user_file_path self user_id) = true /\
    files w1 = files w /\ dirs w1 = dirs w /\ trace w1 = trace w) as Hdef.
  { exists (default_memory user_id (stamp (clock w))), [], (tick w).
    by rewrite create_default_memory_run. }
  destruct (files w !! _) as [f|]; [|done].
  destruct (data f) as [j| | |]; try done.
  unfold record_ok in Hf. destruct j as [| | | | |d]; try done.
  destruct (d !! "conversations") as [[| | | |h|]|] eqn:Hc; try done.
  by exists d, h, w.
Qed.

Lemma save_conversation_ready (self : MemoryManager)
    (user_id user_message bot_response : string)
    (metadata : option (gmap string json)) (w : world) :
  can_append self user_id w = true ->
  exists d h w1,
    get_user_memory self user_id w = (Ok (JDict d), w1) /\
    d !! "conversations" = Some (JList h) /\
    save_conversation self user_id user_message bot_response metadata w =
    (Ok tt,
     write_file (_get_user_file_path self user_id)
       (JDict (<["conversations" :=
          JList (trim (h ++ [turn_entry (stamp (clock w1)) user_message
                               bot_response metadata]))]> d))
       (tick w1)).
Proof.
  intros (d & h & w1 & Hload & Hc & _ & Hw & Hf & Hd & _)%store_ready_loads.
  exists d, h, w1. split; [done|]. split; [done|].
  rewrite (save_conversation_run _ _ _ _ _ _ _ _ _ Hload Hc).
  rewrite json_dump_file_run, (can_write_files (tick w1) w) by done.
  by rewrite Hw.
Qed.

Lemma store_ready_weaken (turn_ok : json -> bool) (self : MemoryManager)
    (user_id : string) (w : world) :
  store_ready turn_ok self user_id w = true ->
  can_append self user_id w = true.
Proof.
  unfold can_append, store_ready. intros [-> Hf]%andb_true_iff. simpl.
  destruct (files w !! _) as [f|]; [|done].
  destruct (data f) as [j| | |]; try done.
  unfold record_ok in *. destruct j as [| | | | |d]; try done.
  destruct (d !! "conversations") as [[| | | |h|]|]; try done.
  clear. by induction h.
Qed.

Lemma last_n_snoc_app {A} (n : nat) (l : list A) (x : A) :
  1 <= n -> last_n n (l ++ [x]) = last_n (n - 1) l ++ [x].
Proof.
  intros Hn. unfold last_n. rewrite length_app. simpl.
  rewrite drop_app_le by lia. do 2 f_equal. lia.
Qed.

(** After an append on a ready store the history ends with the new turn. *)
Lemma save_conversation_persists (self : MemoryManager)
    (user_id user_message bot_response : string)
    (metadata : option (gmap string json)) (w : world) :
  (1 <= MAX_CONVERSATION_HISTORY)%Z ->
  can_append self user_id w = true ->
  exists w' prior timestamp,
    save_conversation self user_id user_message bot_response metadata w
      = (Ok tt, w') /\
    trace w' = trace w /\
    fst (get_conversation_history self user_id w')
      = Ok (JList (prior ++ [turn_entry timestamp user_message bot_response
                                          metadata])).
Proof.
  intros HM Hready.
  destruct (save_conversation_ready self user_id user_message bot_response
              metadata w Hready) as (d & h & w1 & Hload & Hc & Hrun).
  eexists _, _, (stamp (clock w1)). split; [exact Hrun|]. split.
  - simpl. destruct (get_user_memory_files self user_id w) as (_ & _ & Ht).
    by rewrite Hload in Ht.
  - rewrite get_conversation_history_written, lookup_insert_eq. simpl.
    rewrite trim_last_n, last_n_snoc_app by lia. done.
Qed.

(** *** The chain *)

Lemma search_vector_db_run
    (db : option (string -> Z -> outcome (list Document)))
    (query : string) (k : Z) (w : world) :
  exists docs,
    search_vector_db db query k w = (Ok docs, logged (Searched query k) w).
Proof.
  unfold search_vector_db, bind, log. simpl.
  destruct db as [similarity_search|]; [|by exists []].
  destruct (similarity_search query k) as [docs|message];
    [by exists docs | by exists []].
Qed.

Lemma forallb_drop {A} (f : A -> bool) (n : nat) (l : list A) :
  forallb f l = true -> forallb f (drop n l) = true.
Proof.
  revert l. induction n as [|n IH]; intros [|x l]; simpl; try done.
  intros [_ ?]%andb_true_iff. by apply IH.
Qed.

Lemma forallb_slice_from {A} (f : A -> bool) (start : Z) (l : list A) :
  forallb f l = true -> forallb f (Py.slice_from start l) = true.
Proof. unfold Py.slice_from. destruct (_ <? _)%Z; apply forallb_drop. Qed.

Lemma format_chat_turns_ok (items : list json) :
  forallb chat_turn_ok items = true ->
  exists lines, format_turns format_chat_turn items = Ok lines.
Proof.
  induction items as [|conv items IH]; simpl; [by exists []|].
  intros [Hc [lines Hl]%IH]%andb_true_iff. rewrite Hl.
  unfold chat_turn_ok in Hc. destruct conv as [| | | | |e]; try done.
  unfold format_chat_turn. simpl.
  destruct (e !! "user_message") as [u|]; [|done].
  destruct (e !! "bot_response") as [[| | |b|b|]|]; try done; simpl; eauto.
Qed.

Lemma format_chat_history_ready (self : MedicalRAGChain) (user_id : string)
    (w : world) :
  can_chat (memory_manager self) user_id w = true ->
  exists hist w1,
    _format_chat_history self user_id w = (Ok hist, w1) /\
    files w1 = files w /\ dirs w1 = dirs w /\ trace w1 = trace w.
Proof.
  intros (d & h & w1 & Hload & Hc & Hok & _ & Hf & Hd & Ht)%store_ready_loads.
  unfold _format_chat_history, get_conversation_history, bind.
  rewrite Hload. simpl. rewrite Hc.
  destruct h as [|conv h]; simpl; [by exists EmptyString, w1|].
  destruct (format_chat_turns_ok (Py.slice_from (-10) (conv :: h)))
    as [lines Hl]; [by apply forallb_slice_from|].
  rewrite Hl. simpl. by eexists _, w1.
Qed.

Lemma chain_apology_facts (message : string) :
  chain_apology message <> EmptyString /\
  Py.contains MEDICAL_DISCLAIMER (chain_apology message) = true /\
  Py.startswith "I apologize" (chain_apology message) = true.
Proof.
  split; [done|]. split.
  - apply contains_spec.
    exists ("I apologize, but I encountered an error processing your query: "
            +:+ message +:+ NL +:+ NL), EmptyString.
    unfold chain_apology. by rewrite !str_app_assoc, str_app_nil_r.
  - by apply startswith_spec; eexists.
Qed.

Lemma generic_apology_facts :
  generic_apology <> EmptyString /\
  Py.contains MEDICAL_DISCLAIMER generic_apology = true /\
  Py.startswith "I apologize" generic_apology = true.
Proof. split; [done|]. split; by vm_compute. Qed.

(** On a query that is not severe, what [invoke] returns when the chain
    fails is the apology of [invoke]. *)
Lemma invoke_answer_on_failure (self : MedicalRAGChain)
    (user_id query : string) (return_sources : bool) (w w' : world)
    (r : Response) :
  _check_severity query = false ->
  (forall input, exists message, chain self input = Failed message) ->
  invoke self user_id query return_sources w = (Ok r, w') ->
  exists message, answer r = chain_apology message.
Proof.
  intros Hsev Hfail. unfold invoke. rewrite Hsev. unfold bind at 1.
  destruct (search_vector_db_run (vector_db self) query (retriever_k self) w)
    as [docs ->].
  unfold bind at 1.
  destruct (_format_chat_history _ _ _) as [[hist|e] w1]; [|done].
  unfold bind, log, ret. simpl.
  match goal with |- context [chain self ?i] =>
    destruct (Hfail i) as [message ->] end.
  intros [= <- _]. by exists message.
Qed.

Lemma invoke_ready (self : MedicalRAGChain) (user_id query : string)
    (return_sources : bool) (w : world) :
  _check_severity query = false ->
  (forall input, exists message, chain self input = Failed message) ->
  can_chat (memory_manager self) user_id w = true ->
  exists r w2 message,
    invoke self user_id query return_sources w = (Ok r, w2) /\
    answer r = chain_apology message /\
    files w2 = files w /\ dirs w2 = dirs w.
Proof.
  intros Hsev Hfail Hready. unfold invoke. rewrite Hsev. unfold bind at 1.
  destruct (search_vector_db_run (vector_db self) query (retriever_k self) w)
    as [docs ->].
  unfold bind at 1.
  destruct (format_chat_history_ready self user_id
              (logged (Searched query (retriever_k self)) w))
    as (hist & w1 & -> & Hf & Hd & _).
  { unfold can_chat. by rewrite (store_ready_files _ _ _ _ w). }
  unfold bind, log, ret. simpl.
  match goal with |- context [chain self ?i] =>
    destruct (Hfail i) as [message ->] end.
  eexists _, _, message. repeat split; done.
Qed.

(** After [MemoryManager.__init__] the memory directory exists, unless its
    path is empty or names a file. *)
Lemma memory_directory_after_init (path : string) (w : world) :
  path <> EmptyString -> files w !! path = None ->
  exists self w',
    MemoryManager_init path w = (Ok self, w') /\
    memory_path self = path /\
    is_dir w' path = true /\
    files w' = files w.
Proof.
  intros Hne Hfile.
  unfold MemoryManager_init, _ensure_memory_directory, bind, os_path_exists,
    os_makedirs, ret.
  cbn [memory_path]. rewrite Hfile. simpl.
  destruct (is_dir w path) eqn:Hd; simpl.
  - by eexists _, _.
  - destruct (String.eqb_spec path EmptyString) as [|_]; [done|]. simpl.
    eexists _, _. repeat split.
    unfold is_dir. simpl.
    destruct (String.eqb_spec path EmptyString) as [|_]; [done|]. simpl.
    apply bool_decide_eq_true. set_solver.
Qed.

(** *** Listing the users *)

Lemma endswith_refl (p : string) : Py.endswith p p = true.
Proof.
  destruct p as [|a p]; [done|]. cbn [Py.endswith].
  by rewrite String.eqb_refl.
Qed.

Lemma endswith_app (p s : string) : Py.endswith p (s +:+ p) = true.
Proof.
  induction s as [|c s IH]; [apply endswith_refl|].
  rewrite str_app_cons. cbn [Py.endswith]. rewrite IH. apply orb_true_r.
Qed.

Lemma delete_all_suffix (s : string) :
  ~ In "."%char (chars s) -> Py.delete_all ".json" (s +:+ ".json") = s.
Proof.
  unfold Py.delete_all. induction s as [|c s IH]; [done|].
  change (chars (String c s)) with (c :: chars s). intros H.
  rewrite str_app_cons. cbn [Py.delete_from Py.startswith].
  replace (Ascii.eqb "." c) with false.
  2:{ symmetry. apply Ascii.eqb_neq. intros <-. apply H. by left. }
  simpl. f_equal. apply IH. intros ?. apply H. by right.
Qed.

Lemma store_written_sanitized (name : string) :
  store_written name ->
  forall c, In c (chars (Py.delete_all ".json" name)) -> safe_char c = true.
Proof.
  intros (s & -> & Hs) c. rewrite delete_all_suffix; [apply Hs|].
  intros H%Hs. discriminate.
Qed.

Lemma os_listdir_run (d : string) (w : world) :
  is_dir w d = true -> os_listdir d w = (Ok (listing d w), w).
Proof. unfold os_listdir. by intros ->. Qed.

Lemma list_users_run (self : MemoryManager) (w : world) :
  is_dir w (memory_path self) = true ->
  list_users self w =
  (Ok (map (Py.delete_all ".json")
           (List.filter (Py.endswith ".json") (listing (memory_path self) w))),
   w).
Proof.
  intros Hd. unfold list_users, bind, os_path_exists. simpl.
  rewrite Hd, orb_true_r. simpl. by rewrite os_listdir_run.
Qed.

Lemma listing_after_write (d p : string) (j : json) (w : world)
    (name : string) :
  In name (listing d (write_file p j w)) ->
  In name (listing d w) \/ entry_name d p = Some name.
Proof.
  unfold listing, write_file. simpl.
  rewrite !in_app_iff, <- !list_elem_of_In, !list_elem_of_omap.
  intros [(q & Hq & Hn)|H]; [|by left; right].
  apply elem_of_elements in Hq. rewrite dom_insert_L in Hq.
  apply elem_of_union in Hq as [->%elem_of_singleton | Hq]; [by right|].
  left. left. exists q. by rewrite elem_of_elements.
Qed.

Lemma listing_has_written (d p : string) (j : json) (w : world)
    (name : string) :
  entry_name d p = Some name -> In name (listing d (write_file p j w)).
Proof.
  intros Hn. unfold listing, write_file. simpl.
  rewrite in_app_iff, <- !list_elem_of_In, !list_elem_of_omap.
  left. exists p. split; [|done].
  rewrite elem_of_elements, dom_insert_L. set_solver.
Qed.

Lemma listing_tick (d : string) (w : world) : listing d (tick w) = listing d w.
Proof. done. Qed.

(** *** Loading and formatting, beside the failing inputs *)

(** Loading returns a value unless the file holds bytes that are not
    UTF-8. *)
Lemma load_recovers_unless_undecodable (self : MemoryManager)
    (user_id : string) (w : world) :
  (forall f, files w !! _get_user_file_path self user_id = Some f ->
             data f <> NotUtf8) ->
  exists j w', get_user_memory self user_id w = (Ok j, w').
Proof.
  intros H. rewrite get_user_memory_run, create_default_memory_run.
  destruct (files w !! _) as [f|]; [|eauto].
  specialize (H f eq_refl). destruct (data f); by eauto.
Qed.

Lemma format_turn_long_agrees (conv : json) :
  long_answer conv -> format_turn conv = format_chat_turn conv.
Proof.
  intros (b & n & Hb & Hn & Hlong). unfold format_turn, format_chat_turn.
  destruct (getitem conv "user_message") as [u|e]; [|done]. simpl.
  rewrite Hb. simpl. rewrite Hn. simpl.
  by replace (200 <? n)%nat with true by (symmetry; apply Nat.ltb_lt; lia).
Qed.

Lemma format_turns_ext (f g : json -> result (list string))
    (items : list json) :
  Forall (fun conv => f conv = g conv) items ->
  format_turns f items = format_turns g items.
Proof.
  induction 1 as [|conv items Hc _ IH]; simpl; [done|]. by rewrite Hc, IH.
Qed.

(** The two renderings agree on a history whose recent answers are all
    longer than the preview. *)
Lemma recall_agrees_on_long_answers (self : MedicalRAGChain)
    (user_id : string) (w : world) :
  (forall convs recent items,
      fst (get_conversation_history (memory_manager self) user_id w)
        = Ok convs ->
      slice_from (-10) convs = Ok recent ->
      py_iter recent = Ok items ->
      Forall long_answer items) ->
  _format_chat_history self user_id w
  = get_formatted_history (memory_manager self) user_id 10 w.
Proof.
  intros H.
  unfold _format_chat_history, get_formatted_history, bind, lift, ret.
  destruct (get_conversation_history _ _ w) as [[convs|e] w1] eqn:Hh;
    [|done].
  destruct (truthy convs); simpl; [|done].
  change (Z.opp 10) with (-10)%Z.
  destruct (slice_from (-10) convs) as [recent|e] eqn:Hs; [|done].
  destruct (py_iter recent) as [items|e] eqn:Hi; [|done].
  rewrite (format_turns_ext format_chat_turn format_turn items); [done|].
  eapply Forall_impl; [by eapply (H convs recent items)|].
  intros conv Hl. symmetry. by apply format_turn_long_agrees.
Qed.

(** With a cap of zero the slice [l[-0:]] is the whole list: nothing is
    dropped. *)
Remark slice_from_minus_zero {A} (l : list A) : Py.slice_from (- 0) l = l.
Proof. done. Qed.

(** *** The severity classifier *)


(** *** The conversation store *)





(** C8. When the preferences read for a user are [current] and
    [update_user_preferences] with [patch] returns, the preferences read
    afterwards are [current] overridden key by key with [patch]: a key of
    [patch] has the value of [patch], any other key keeps its value. *)
Theorem update_preferences_merges (self : MemoryManager) (user_id : string)
    (patch current : gmap string json) (w w' : world) :
  fst (get_user_preferences self user_id w) = Ok (JDict current) ->
  update_user_preferences self user_id patch w = (Ok tt, w') ->
  fst (get_user_preferences self user_id w') = Ok (JDict (patch ∪ current)) /\
  (forall k v, patch !! k = Some v -> (patch ∪ current) !! k = Some v) /\
  (forall k, patch !! k = None -> (patch ∪ current) !! k = current !! k).
Proof.
  intros Hread Hrun. split; [|split].
  - pose proof (update_user_preferences_outcome self user_id patch w)
      as [(e & He & _)|(d & cur & w1 & Hload & Hc & Hw & Hok)]; simpl in *.
    { rewrite Hrun in He. discriminate. }
    rewrite Hrun in Hok. injection Hok as ->.
    unfold get_user_preferences, bind in Hread.
    rewrite Hload in Hread. simpl in Hread. rewrite Hc in Hread.
    injection Hread as ->.
    unfold get_user_preferences, bind. rewrite get_user_memory_written.
    simpl. by rewrite lookup_insert_eq.
  - intros k v Hk. by apply lookup_union_Some_l.
  - intros k Hk. by apply lookup_union_r.
Qed.

(** C10. A freshly initialized record has no conversations, and its
    preferences hold exactly the keys [name] (the user_id as given),
    [known_conditions] (empty) and [allergies] (empty).  It is what loading
    returns when the user's file is missing, is not JSON or cannot be
    opened, and what [clear_user_memory] writes. *)
Theorem default_memory_shape (self : MemoryManager) (user_id : string)
    (w : world) :
  let fresh := default_memory user_id (stamp (clock w)) in
  let path := _get_user_file_path self user_id in
  _create_default_memory user_id w = (Ok (JDict fresh), tick w) /\
  fresh !! "conversations" = Some (JList []) /\
  fresh !! "preferences" = Some (JDict (default_preferences user_id)) /\
  default_preferences user_id !! "name" = Some (JStr user_id) /\
  default_preferences user_id !! "known_conditions" = Some (JList []) /\
  default_preferences user_id !! "allergies" = Some (JList []) /\
  dom (default_preferences user_id)
    = ({[ "name"; "known_conditions"; "allergies" ]} : gset string) /\
  default_preferences user_id <> ∅ /\
  (match files w !! path with
   | None => True
   | Some f => data f = NotJson \/ data f = Unreadable
   end ->
   get_user_memory self user_id w = (Ok (JDict fresh), tick w)) /\
  (forall w', clear_user_memory self user_id w = (Ok tt, w') ->
     files w' !! path = Some (File (Parsed (JDict fresh)) true)).
Proof.
  intros fresh path.
  repeat match goal with |- _ /\ _ => split end; try reflexivity.
  - intros H. apply (f_equal (fun m => m !! "name")) in H. discriminate.
  - intros H. rewrite get_user_memory_run. fold path.
    destruct (files w !! path) as [f|]; [|done].
    by destruct H as [-> | ->].
  - intros w'. rewrite clear_user_memory_run.
    destruct (can_write w _); [|done]. intros [= <-].
    unfold write_file. simpl. apply lookup_insert_eq.
Qed.

(** C4, at a record whose bytes are not UTF-8: [open] with
    [encoding='utf-8'] and [json.load] raise [UnicodeDecodeError], which
    [except (json.JSONDecodeError, IOError)] does not catch, so loading
    raises.  Every later query of that user then ends in the handler of
    [_handle_user_input], and the record stays as it is. *)
Theorem load_raises_on_undecodable_record :
  get_user_memory sample_manager "bob" undecodable_store
    = (Raise UnicodeDecodeError, undecodable_store) /\
  corrupt_file_error UnicodeDecodeError = false /\
  fst (_handle_user_input bob_chatbot "I sneeze a lot" undecodable_store)
    = Ok generic_apology /\
  files (snd (_handle_user_input bob_chatbot "I sneeze a lot"
                undecodable_store))
    = files undecodable_store.
Proof.
  split; [reflexivity|]. split; [reflexivity|].
  split; vm_compute; reflexivity.
Qed.

(** C5, at a record with one short answer: the history that the chain puts
    into the prompt ends every answer with an ellipsis, the formatted
    history of the store only an answer longer than 200 characters. *)
Theorem recall_differs_from_formatted_history :
  fst (_format_chat_history sample_chain "alice" short_reply_store)
    = Ok ("User: hi" +:+ NL +:+ "Assistant: ok...") /\
  fst (get_formatted_history (memory_manager sample_chain) "alice" 10
         short_reply_store)
    = Ok ("User: hi" +:+ NL +:+ "Assistant: ok").
Proof. split; vm_compute; reflexivity. Qed.


(** *** The orchestrator *)






End Store.

(** ** The statements on sample runs *)





(** C8 on the scenario of the specification: one allergy is recorded. *)
Lemma update_preferences_merges_witness :
  let w := short_reply_store in
  let patch : gmap string json :=
    {[ "allergies" := JList [JStr "penicillin"] ]} in
  let current := default_preferences "alice" in
  let run := update_user_preferences sample_stamp sample_manager "alice"
               patch w in
  fst (get_user_preferences sample_stamp sample_manager "alice" w)
    = Ok (JDict current) /\
  run = (Ok tt, snd run) /\
  fst (get_user_preferences sample_stamp sample_manager "alice" (snd run))
    = Ok (JDict (patch ∪ current)) /\
  (patch ∪ current) !! "allergies" = Some (JList [JStr "penicillin"]) /\
  (patch ∪ current) !! "name" = Some (JStr "alice").
Proof.
  intros w patch current run.
  assert (Hread :
    fst (get_user_preferences sample_stamp sample_manager "alice" w)
      = Ok (JDict current)) by (vm_compute; reflexivity).
  assert (Hrun : run = (Ok tt, snd run)) by (vm_compute; reflexivity).
  destruct (update_preferences_merges sample_stamp sample_manager "alice"
              patch current w (snd run) Hread Hrun) as (Hafter & Hnew & Hold).
  split; [exact Hread|]. split; [exact Hrun|]. split; [exact Hafter|].
  split.
  - apply Hnew. vm_compute; reflexivity.
  - rewrite Hold; vm_compute; reflexivity.
Defined.



(** C10 for a user that the store has not seen. *)
Lemma default_memory_shape_witness :
  let w := empty_store in
  let fresh := default_memory "alice" (sample_stamp 0) in
  let run := clear_user_memory sample_stamp sample_manager "alice" w in
  files w !! _get_user_file_path sample_manager "alice" = None /\
  get_user_memory sample_stamp sample_manager "alice" w
    = (Ok (JDict fresh), tick w) /\
  run = (Ok tt, snd run) /\
  files (snd run) !! _get_user_file_path sample_manager "alice"
    = Some (File (Parsed (JDict fresh)) true).
Proof.
  intros w fresh run.
  assert (Hnone : files w !! _get_user_file_path sample_manager "alice"
                  = None) by (vm_compute; reflexivity).
  assert (Hrun : run = (Ok tt, snd run)) by (vm_compute; reflexivity).
  destruct (default_memory_shape sample_stamp sample_manager "alice" w)
    as (_ & _ & _ & _ & _ & _ & _ & _ & Hload & Hclear).
  split; [exact Hnone|]. split.
  - apply Hload. rewrite Hnone. exact I.
  - split; [exact Hrun|]. exact (Hclear (snd run) Hrun).
Defined.

(** * Further behaviour of the code

    The rest of the development covers the functions that the statements
    above did not need: the remaining behaviour of the conversation store,
    [MedicalRAGChain.run], the command loop of [MedicalChatbot], the helpers
    of [utils/helpers.py] and the URL list of [document_loader.py].  As
    before, what the program prints on the console is not part of the
    model. *)

From Stdlib Require Import DecimalString.
Set Warnings "-notation-for-abbreviation".

(** ** More Python built-ins *)

Module PyStr.

(** The characters that [str.strip()] removes, on the ASCII range. *)
Definition is_space (c : ascii) : bool :=
  let n := N_of_ascii c in
  ((9 <=? n) && (n <=? 13) || (28 <=? n) && (n <=? 32))%N.

(** [s.lstrip()] *)
Fixpoint lstrip (s : string) : string :=
  match s with
  | EmptyString => EmptyString
  | String c t => if is_space c then lstrip t else s
  end.

(** [s.rstrip()] *)
Fixpoint rstrip (s : string) : string :=
  match s with
  | EmptyString => EmptyString
  | String c t =>
      match rstrip t with
      | EmptyString => if is_space c then EmptyString else String c EmptyString
      | kept => String c kept
      end
  end.

(** [s.strip()] *)
Definition strip (s : string) : string := rstrip (lstrip s).

(** [s[:stop]] for an integer [stop] of either sign. *)
Definition slice_to (stop : Z) (s : string) : string :=
  if (stop <? 0)%Z
  then Py.take (Z.to_nat (Z.of_nat (String.length s) + stop)) s
  else Py.take (Z.to_nat stop) s.

End PyStr.

(** [str(n)] for a natural number. *)
Definition str_of_nat (n : nat) : string :=
  NilEmpty.string_of_uint (Nat.to_uint n).

(** ** utils/helpers.py *)

Definition filename_char (c : ascii) : bool :=
  Py.isalnum c || Py.contains (String c EmptyString) ".-_".

Definition sanitize_filename (filename : string) : string :=
  Py.filter_chars filename_char filename.

Definition truncate_text (text : string) (max_length : Z) (suffix : string)
  : string :=
  if (Z.of_nat (String.length text) <=? max_length)%Z then text
  else PyStr.slice_to (max_length - Z.of_nat (String.length suffix)) text
       +:+ suffix.

(** What [retry_operation] leaves behind: how it ended, how many times it
    called [func], and for how many seconds it slept. *)
Record retry_run (A : Type) : Type := {
  ended : outcome (option A);   (* [Returned None] is the result [None] *)
  calls : nat;
  slept : Z
}.
Arguments ended {A} _.
Arguments calls {A} _.
Arguments slept {A} _.

(** The loop [for attempt in range(max_retries)], from [attempt] on;
    [func n] is what the call number [n] of [func] does, and
    [time.sleep] refuses a negative duration. *)
Fixpoint retry_from {A} (func : nat -> outcome A) (max_retries delay : Z)
    (attempts : list nat) (done_calls : nat) (slept_so_far : Z)
  : retry_run A :=
  match attempts with
  | [] => {| ended := Returned None;
             calls := done_calls; slept := slept_so_far |}
  | attempt :: rest =>
      match func done_calls with
      | Returned a =>
          {| ended := Returned (Some a);
             calls := S done_calls; slept := slept_so_far |}
      | Failed message =>
          if (Z.of_nat attempt =? max_retries - 1)%Z
          then {| ended := Failed message;
                  calls := S done_calls; slept := slept_so_far |}
          else
            let wait_time := (delay * 2 ^ Z.of_nat attempt)%Z in
            if (wait_time <? 0)%Z
            then {| ended := Failed "sleep length must be non-negative";
                    calls := S done_calls; slept := slept_so_far |}
            else retry_from func max_retries delay rest (S done_calls)
                            (slept_so_far + wait_time)
      end
  end.

Definition retry_operation {A} (func : nat -> outcome A)
    (max_retries delay : Z) : retry_run A :=
  retry_from func max_retries delay (seq 0 (Z.to_nat max_retries)) 0 0.

(** ** src/document_loader.py: the list of URLs *)

(** The comprehension over the lines of the URLs file. *)
Definition parse_url_lines (lines : list string) : list string :=
  map PyStr.strip
    (List.filter
       (fun line =>
          negb (String.eqb (PyStr.strip line) EmptyString)
          && negb (Py.startswith "#" (PyStr.strip line)))
       lines).

(** [range(0, stop, step)] for a positive [step] *)
Definition range_step (stop step : nat) : list nat :=
  map (fun j => j * step) (seq 0 ((stop + step - 1) / step)).

Definition batch_size : nat := 5.

(** [urls[i:i + batch_size]] for [i] in [range(0, len(urls), batch_size)] *)
Definition url_batches (urls : list string) : list (list string) :=
  map (fun i => firstn batch_size (skipn i urls))
      (range_step (length urls) batch_size).

(** The web loader is an external service: what a call returns may depend
    on the calls made before it. *)
Definition web_loader : Type :=
  list (list string) -> list string -> outcome (list Document).

(** One URL of a batch that failed, loaded alone. *)
Fixpoint load_each (loader : web_loader) (batch : list string)
    (made : list (list string)) : list Document * list (list string) :=
  match batch with
  | [] => ([], made)
  | url :: rest =>
      let docs :=
        match loader made [url] with
        | Returned docs => docs
        | Failed _ => []
        end in
      let (more, made') := load_each loader rest (made ++ [[url]]) in
      (docs ++ more, made')
  end.

(** The loop over the batches; [made] lists the calls to the loader. *)
Fixpoint load_batches (loader : web_loader) (batches : list (list string))
    (made : list (list string)) : list Document * list (list string) :=
  match batches with
  | [] => ([], made)
  | batch :: rest =>
      let (docs, made1) :=
        match loader made batch with
        | Returned docs => (docs, made ++ [batch])
        | Failed _ => load_each loader batch (made ++ [batch])
        end in
      let (more, made2) := load_batches loader rest made1 in
      (docs ++ more, made2)
  end.

(** [urls_file] is [None] when the file does not exist, and otherwise what
    reading its lines does.  The result is the documents and the calls made
    to the loader. *)
Definition load_url_documents (loader : web_loader)
    (urls_file : option (outcome (list string)))
  : list Document * list (list string) :=
  match urls_file with
  | None => ([], [])
  | Some (Failed _) => ([], [])
  | Some (Returned lines) =>
      let urls := parse_url_lines lines in
      match urls with
      | [] => ([], [])
      | _ :: _ => load_batches loader (url_batches urls) []
      end
  end.

(** ** The rest of src/rag_chain.py and medical_chatbot.py *)

Section Session.
Local Open Scope monad_scope.

Variable MAX_CONVERSATION_HISTORY : Z.
Variable stamp : nat -> string.
Variable py_repr : json -> string.

Notation get_user_memory := (get_user_memory stamp).
Notation _create_default_memory := (_create_default_memory stamp).
Notation save_conversation :=
  (save_conversation MAX_CONVERSATION_HISTORY stamp).
Notation get_conversation_history := (get_conversation_history stamp).
Notation get_formatted_history := (get_formatted_history stamp py_repr).
Notation update_user_preferences := (update_user_preferences stamp).
Notation get_user_preferences := (get_user_preferences stamp).
Notation clear_user_memory := (clear_user_memory stamp).
Notation run_call := (run_call MAX_CONVERSATION_HISTORY stamp py_repr).
Notation _format_chat_history := (_format_chat_history stamp py_repr).
Notation invoke := (invoke stamp py_repr).
Notation _handle_user_input :=
  (_handle_user_input MAX_CONVERSATION_HISTORY stamp py_repr).
Notation format_turn := (format_turn py_repr).
Notation format_chat_turn := (format_chat_turn py_repr).
Notation trim := (trim MAX_CONVERSATION_HISTORY).

(** The loop of [MedicalRAGChain.run] over [enumerate(sources, 1)]. *)
Fixpoint sources_lines (i : nat) (srcs : list Source) (sources_text : string)
  : string :=
  match srcs with
  | [] => sources_text
  | source :: rest =>
      sources_lines (S i) rest
        (sources_text +:+ str_of_nat i +:+ ". "
         +:+ Py.take 100 (content source) +:+ "..." +:+ NL)
  end.

(** [MedicalRAGChain.run] *)
Definition MedicalRAGChain_run (self : MedicalRAGChain)
    (user_id query : string) (return_sources : bool) : M string :=
  result <- invoke self user_id query return_sources ;;
  let answer := answer result in
  if return_sources && match sources result with [] => false | _ => true end
  then
    let sources_text :=
      sources_lines 1 (sources result)
        (NL +:+ NL +:+ "📚 **Sources:**" +:+ NL) in
    ret (answer +:+ sources_text)
  else ret answer.

(** What the [/history] command evaluates for one turn before printing. *)
Definition history_line (conv : json) : result unit :=
  (user_message <-? getitem conv "user_message" ;;
   _ <-? slice_to 50 user_message ;;
   Ok tt)%res.

Fixpoint history_lines (convs : list json) : result unit :=
  match convs with
  | [] => Ok tt
  | conv :: rest => (_ <-? history_line conv ;; history_lines rest)%res
  end.

(** [MedicalChatbot._process_command]; the chatbot is returned because
    [/sources] changes [self.show_sources]. *)
Definition _process_command (self : MedicalChatbot) (command : string)
  : M (bool * MedicalChatbot) :=
  let cmd := PyStr.strip (Py.lower command) in
  if String.eqb cmd "/help" then ret (true, self)
  else if String.eqb cmd "/history" then
    history <- get_conversation_history (memory_manager (rag_chain self))
                 (cb_user_id self) ;;
    _ <- lift (py_len history) ;;
    recent <- lift (slice_from (-5) history) ;;
    items <- lift (py_iter recent) ;;
    _ <- lift (history_lines items) ;;
    ret (true, self)
  else if String.eqb cmd "/clear" then
    clear_user_memory (memory_manager (rag_chain self)) (cb_user_id self) ;;
    ret (true, self)
  else if String.eqb cmd "/sources" then
    ret (true, {| rag_chain := rag_chain self;
                  cb_user_id := cb_user_id self;
                  show_sources := negb (show_sources self) |})
  else if String.eqb cmd "/exit" then ret (false, self)
  else ret (false, self).

(** The [while True] loop of [MedicalChatbot.run] over the lines that the
    user types; at the end of the input [get_user_input] answers [/exit]. *)
Fixpoint conversation_loop (self : MedicalChatbot) (inputs : list string)
  : M MedicalChatbot :=
  match inputs with
  | [] => ret self
  | user_input :: rest =>
      if String.eqb user_input EmptyString then conversation_loop self rest
      else if Py.startswith "/" user_input then
        if String.eqb user_input "/exit" then ret self
        else
          processed <- _process_command self user_input ;;
          conversation_loop (snd processed) rest
      else
        _handle_user_input self user_input ;;
        conversation_loop self rest
  end.

(** [MedicalChatbot._authenticate_user]: the user name and the lines that
    are left. *)
Fixpoint _authenticate_user (self : MedicalChatbot) (inputs : list string)
  : M (string * list string) :=
  match inputs with
  | [] =>
      list_users (memory_manager (rag_chain self)) ;;
      ret (PyStr.strip "/exit", [])
  | line :: rest =>
      let username := PyStr.strip line in
      if String.eqb username EmptyString then _authenticate_user self rest
      else if String.eqb (Py.lower username) "new" then
        let next :=
          match rest with
          | [] => (PyStr.strip "/exit", [])
          | line' :: rest' => (PyStr.strip line', rest')
          end in
        list_users (memory_manager (rag_chain self)) ;;
        ret next
      else
        list_users (memory_manager (rag_chain self)) ;;
        ret (username, rest)
  end.

(** [MedicalChatbot.run] *)
Definition MedicalChatbot_run (self : MedicalChatbot) (inputs : list string)
  : M MedicalChatbot :=
  login <- _authenticate_user self inputs ;;
  conversation_loop
    {| rag_chain := rag_chain self;
       cb_user_id := fst login;
       show_sources := show_sources self |}
    (snd login).

(** Appending one turn after the other. *)
Fixpoint save_all (self : MemoryManager) (user_id : string)
    (turns : list (string * string)) : M unit :=
  match turns with
  | [] => ret tt
  | (user_message, bot_response) :: rest =>
      save_conversation self user_id user_message bot_response None ;;
      save_all self user_id rest
  end.

End Session.

(** *** Vocabulary of the further statements *)

(** What a stored turn says: its user message and its answer. *)
Definition exchange (conv : json) : result json * result json :=
  (getitem conv "user_message", getitem conv "bot_response").

(** What the turn made of a user message and an answer says. *)
Definition said (turn : string * string) : result json * result json :=
  (Ok (JStr (fst turn)), Ok (JStr (snd turn))).

(** A turn whose user message and answer are strings. *)
Definition text_turn (conv : json) : Prop :=
  exists e user_message bot_response,
    conv = JDict e /\
    e !! "user_message" = Some (JStr user_message) /\
    e !! "bot_response" = Some (JStr bot_response).

(** The lines of a formatted history, two for each rendered turn. *)
Definition two_lines (rendered : list (string * string)) : list string :=
  flat_map (fun lines => [fst lines; snd lines]) rendered.

(** A user line and an assistant line of at most 214 characters. *)
Definition bounded_lines (lines : string * string) : Prop :=
  Py.startswith "User: " (fst lines) = true /\
  Py.startswith "Assistant: " (snd lines) = true /\
  String.length (snd lines) <= 214.

(** The documents that [invoke] works with: those of the index, or none
    when there is no index or the search fails. *)
Definition retrieved (self : MedicalRAGChain) (query : string)
  : list Document :=
  match vector_db self with
  | None => []
  | Some similarity_search =>
      match similarity_search query (retriever_k self) with
      | Returned docs => docs
      | Failed _ => []
      end
  end.

(** The lines that [MedicalRAGChain.run] prints for the documents [docs],
    numbered from [i]. *)
Fixpoint listed_sources (i : nat) (docs : list Document) : string :=
  match docs with
  | [] => EmptyString
  | doc :: rest =>
      str_of_nat i +:+ ". " +:+ Py.take 100 (page_content doc) +:+ "..."
      +:+ NL +:+ listed_sources (S i) rest
  end.

(** The chatbot [self] with the source citations set to [shown]. *)
Definition with_sources (shown : bool) (self : MedicalChatbot)
  : MedicalChatbot :=
  {| rag_chain := rag_chain self;
     cb_user_id := cb_user_id self;
     show_sources := shown |}.

(** The calls to the chain and to the index among the recorded events. *)
Definition is_generated (e : event) : bool :=
  match e with Generated _ => true | Searched _ _ => false end.

Definition is_searched (e : event) : bool :=
  match e with Searched _ _ => true | Generated _ => false end.

(** A line that the loop of [MedicalChatbot.run] hands to
    [_handle_user_input]. *)
Definition plain_line (line : string) : bool :=
  negb (String.eqb line EmptyString) && negb (Py.startswith "/" line).

(** Two runs of the loop that end alike, the setting of the source
    citations apart. *)
Definition same_end (r1 r2 : result MedicalChatbot) : Prop :=
  match r1, r2 with
  | Ok s1, Ok s2 =>
      rag_chain s1 = rag_chain s2 /\ cb_user_id s1 = cb_user_id s2
  | Raise e1, Raise e2 => e1 = e2
  | _, _ => False
  end.

(** The record of [alice] is a file that cannot be written. *)
Definition read_only_store : world :=
  World {[ "memory/users/" ]}
        {[ "memory/users/alice.json" :=
             File (Parsed (JDict
                     (default_memory "alice" "2026-01-01T09:00:00"))) false ]}
        0 [].

(** A chain over an index that returns one long document. *)
Definition indexed_chain : MedicalRAGChain :=
  {| chain := fun _ => Returned "Rest and drink water.";
     vector_db :=
       Some (fun _ _ =>
         Returned [ {| page_content := "Fever is a rise of the body temperature.";
                       doc_metadata := JDict ∅ |} ]);
     memory_manager := sample_manager;
     retriever_k := DEFAULT_RETRIEVER_K |}.

(** ** Properties *)

Section Laws.
Local Open Scope monad_scope.

Variable MAX_CONVERSATION_HISTORY : Z.
Variable stamp : nat -> string.
Variable py_repr : json -> string.

Notation get_user_memory := (get_user_memory stamp).
Notation _create_default_memory := (_create_default_memory stamp).
Notation save_conversation :=
  (save_conversation MAX_CONVERSATION_HISTORY stamp).
Notation get_conversation_history := (get_conversation_history stamp).
Notation get_formatted_history := (get_formatted_history stamp py_repr).
Notation update_user_preferences := (update_user_preferences stamp).
Notation get_user_preferences := (get_user_preferences stamp).
Notation clear_user_memory := (clear_user_memory stamp).
Notation run_call := (run_call MAX_CONVERSATION_HISTORY stamp py_repr).
Notation _format_chat_history := (_format_chat_history stamp py_repr).
Notation invoke := (invoke stamp py_repr).
Notation _handle_user_input :=
  (_handle_user_input MAX_CONVERSATION_HISTORY stamp py_repr).
Notation format_turn := (format_turn py_repr).
Notation format_chat_turn := (format_chat_turn py_repr).
Notation trim := (trim MAX_CONVERSATION_HISTORY).
Notation MedicalRAGChain_run := (MedicalRAGChain_run stamp py_repr).
Notation _process_command := (_process_command stamp).
Notation conversation_loop :=
  (conversation_loop MAX_CONVERSATION_HISTORY stamp py_repr).
Notation MedicalChatbot_run :=
  (MedicalChatbot_run MAX_CONVERSATION_HISTORY stamp py_repr).
Notation save_all := (save_all MAX_CONVERSATION_HISTORY stamp).

(** *** The conversation store *)

Lemma get_user_preferences_written (self : MemoryManager) (user_id : string)
    (d : gmap string json) (w : world) :
  get_user_preferences self user_id
    (write_file (_get_user_file_path self user_id) (JDict d) w) =
  (Ok (match d !! "preferences" with Some x => x | None => JDict ∅ end),
   write_file (_get_user_file_path self user_id) (JDict d) w).
Proof.
  unfold get_user_preferences, bind. by rewrite get_user_memory_written.
Qed.

Lemma get_formatted_history_empty (self : MemoryManager) (user_id : string)
    (max_turns : Z) (w : world) :
  fst (get_conversation_history self user_id w) = Ok (JList []) ->
  fst (get_formatted_history self user_id max_turns w) = Ok EmptyString.
Proof.
  unfold get_formatted_history, bind.
  destruct (get_conversation_history self user_id w) as [[j|e] w1];
    simpl; [|done].
  by intros [= ->].
Qed.

Lemma can_append_written (self : MemoryManager) (user_id : string)
    (d : gmap string json) (h : list json) (w : world) :
  can_write w (_get_user_file_path self user_id) = true ->
  d !! "conversations" = Some (JList h) ->
  can_append self user_id
    (write_file (_get_user_file_path self user_id) (JDict d) w) = true.
Proof.
  intros Hw Hc. unfold can_append, store_ready.
  rewrite can_write_after_write by done.
  unfold write_file. simpl. rewrite lookup_insert_eq. simpl. rewrite Hc.
  clear. by induction h.
Qed.


(** X2. An append that returns leaves the preferences as they were read before
    it, and an update of the preferences that returns leaves the history as
    it was read before it. *)
Theorem append_and_update_do_not_interfere (self : MemoryManager)
    (user_id : string) (w w' : world) :
  (forall user_message bot_response md,
      save_conversation self user_id user_message bot_response md w
        = (Ok tt, w') ->
      fst (get_user_preferences self user_id w')
        = fst (get_user_preferences self user_id w)) /\
  (forall patch,
      update_user_preferences self user_id patch w = (Ok tt, w') ->
      fst (get_conversation_history self user_id w')
        = fst (get_conversation_history self user_id w)).
Proof.
  split.
  - intros um br md Hrun.
    pose proof (save_conversation_outcome MAX_CONVERSATION_HISTORY stamp
                  self user_id um br md w)
      as [(e & He & _)|(d & h & w1 & Hload & Hc & _ & Hok)]; simpl in *.
    { rewrite Hrun in He. discriminate. }
    rewrite Hrun in Hok. injection Hok as ->.
    rewrite get_user_preferences_written, lookup_insert_ne by done.
    unfold get_user_preferences, bind. by rewrite Hload.
  - intros patch Hrun.
    pose proof (update_user_preferences_outcome stamp self user_id patch w)
      as [(e & He & _)|(d & cur & w1 & Hload & Hc & _ & Hok)]; simpl in *.
    { rewrite Hrun in He. discriminate. }
    rewrite Hrun in Hok. injection Hok as ->.
    rewrite get_conversation_history_written, lookup_insert_ne by done.
    unfold get_conversation_history, bind. by rewrite Hload.
Qed.


Lemma last_n_app_last_n {A} (n : nat) (l r : list A) :
  last_n n (last_n n l ++ r) = last_n n (l ++ r).
Proof.
  unfold last_n. rewrite !length_app, length_drop.
  destruct (decide (n <= length l)) as [Hle|Hgt].
  - replace (drop (length l - n) l ++ r) with (drop (length l - n) (l ++ r))
      by (rewrite drop_app_le by lia; done).
    rewrite drop_drop. f_equal. lia.
  - replace (length l - n) with 0 by lia. rewrite drop_0. f_equal. lia.
Qed.

Lemma map_last_n {A B} (f : A -> B) (n : nat) (l : list A) :
  map f (last_n n l) = last_n n (map f l).
Proof.
  unfold last_n. rewrite length_map.
  generalize (length l - n). intros k. revert k.
  induction l as [|x l IH]; intros [|k]; simpl; done.
Qed.

Lemma exchange_turn_entry (timestamp user_message bot_response : string)
    (md : option (gmap string json)) :
  exchange (turn_entry timestamp user_message bot_response md)
  = said (user_message, bot_response).
Proof. reflexivity. Qed.

Lemma can_append_can_write (self : MemoryManager) (user_id : string)
    (w : world) :
  can_append self user_id w = true ->
  can_write w (_get_user_file_path self user_id) = true.
Proof. unfold can_append, store_ready. by intros [? _]%andb_true_iff. Qed.

(** One append on a record that is ready. *)
Lemma save_conversation_step (self : MemoryManager)
    (user_id user_message bot_response : string) (h : list json)
    (w : world) :
  (1 <= MAX_CONVERSATION_HISTORY)%Z ->
  can_append self user_id w = true ->
  fst (get_conversation_history self user_id w) = Ok (JList h) ->
  exists w1 timestamp,
    save_conversation self user_id user_message bot_response None w
      = (Ok tt, w1) /\
    can_append self user_id w1 = true /\
    fst (get_conversation_history self user_id w1)
      = Ok (JList (last_n (Z.to_nat MAX_CONVERSATION_HISTORY)
                     (h ++ [turn_entry timestamp user_message bot_response
                                       None]))).
Proof.
  intros HM Hready Hh.
  destruct (save_conversation_ready MAX_CONVERSATION_HISTORY stamp self
              user_id user_message bot_response None w Hready)
    as (d & h0 & w1 & Hload & Hc & Hrun).
  unfold get_conversation_history, bind in Hh. rewrite Hload in Hh.
  simpl in Hh. rewrite Hc in Hh. injection Hh as ->.
  destruct (get_user_memory_files stamp self user_id w) as (Hf & Hd & _).
  rewrite Hload in Hf, Hd. simpl in Hf, Hd.
  eexists _, (stamp (clock w1)). split; [exact Hrun|]. split.
  - eapply can_append_written; [|apply lookup_insert_eq].
    rewrite (can_write_files (tick w1) w) by done.
    by apply can_append_can_write.
  - rewrite get_conversation_history_written, lookup_insert_eq.
    by rewrite trim_last_n.
Qed.

Lemma save_all_run (self : MemoryManager) (user_id : string)
    (turn : string * string) (turns : list (string * string))
    (h : list json) (w : world) :
  (1 <= MAX_CONVERSATION_HISTORY)%Z ->
  can_append self user_id w = true ->
  fst (get_conversation_history self user_id w) = Ok (JList h) ->
  exists w' h',
    save_all self user_id (turn :: turns) w = (Ok tt, w') /\
    fst (get_conversation_history self user_id w') = Ok (JList h') /\
    map exchange h'
      = last_n (Z.to_nat MAX_CONVERSATION_HISTORY)
          (map exchange h ++ map said (turn :: turns)).
Proof.
  intros HM. revert turn h w.
  induction turns as [|next turns IH]; intros [um br] h w Hready Hh.
  - destruct (save_conversation_step self user_id um br h w HM Hready Hh)
      as (w1 & ts & Hrun & _ & Hh1).
    exists w1, (last_n (Z.to_nat MAX_CONVERSATION_HISTORY)
                  (h ++ [turn_entry ts um br None])).
    split; [|split; [done|]].
    + simpl. unfold bind. by rewrite Hrun.
    + by rewrite map_last_n, map_app.
  - destruct (save_conversation_step self user_id um br h w HM Hready Hh)
      as (w1 & ts & Hrun & Hready1 & Hh1).
    destruct (IH next _ w1 Hready1 Hh1) as (w' & h' & Hall & Hh' & Hsaid).
    exists w', h'. split; [|split; [done|]].
    + change (save_all self user_id ((um, br) :: next :: turns) w)
        with (bind (save_conversation self user_id um br None)
                (fun _ => save_all self user_id (next :: turns)) w).
      unfold bind at 1. by rewrite Hrun.
    + rewrite Hsaid, map_last_n, map_app, last_n_app_last_n.
      change (map exchange [turn_entry ts um br None]) with [said (um, br)].
      by rewrite <- app_assoc.
Qed.

(** X4. After one or more appends on a record that is ready, with a positive
    cap, the history says what the last [MAX_CONVERSATION_HISTORY] of the
    turns before and the new turns say, in that order: the oldest turns are
    the ones dropped. *)
Theorem appends_keep_the_most_recent (self : MemoryManager)
    (user_id : string) (turns : list (string * string)) (h : list json)
    (w : world) :
  (1 <= MAX_CONVERSATION_HISTORY)%Z ->
  turns <> [] ->
  can_append self user_id w = true ->
  fst (get_conversation_history self user_id w) = Ok (JList h) ->
  exists w' h',
    save_all self user_id turns w = (Ok tt, w') /\
    fst (get_conversation_history self user_id w') = Ok (JList h') /\
    map exchange h'
      = last_n (Z.to_nat MAX_CONVERSATION_HISTORY)
          (map exchange h ++ map said turns) /\
    length h'
      = Nat.min (Z.to_nat MAX_CONVERSATION_HISTORY)
                (length h + length turns).
Proof.
  intros HM Hne Hready Hh. destruct turns as [|turn turns]; [done|].
  destruct (save_all_run self user_id turn turns h w HM Hready Hh)
    as (w' & h' & Hrun & Hh' & Hsaid).
  exists w', h'. repeat split; try done.
  apply (f_equal length) in Hsaid. rewrite length_map in Hsaid.
  rewrite Hsaid. unfold last_n.
  rewrite length_drop, !length_app, !length_map. simpl. lia.
Qed.


(** X6. [list_users] changes nothing; it returns the empty list when the memory
    path does not exist, and raises when the path names a file. *)
Theorem list_users_edge_cases (self : MemoryManager) (w : world) :
  snd (list_users self w) = w /\
  (files w !! memory_path self = None ->
   is_dir w (memory_path self) = false ->
   list_users self w = (Ok [], w)) /\
  (is_Some (files w !! memory_path self) ->
   is_dir w (memory_path self) = false ->
   list_users self w = (Raise OSError, w)).
Proof.
  unfold list_users, bind, os_path_exists, os_listdir, ret.
  split; [|split].
  - simpl. destruct (_ || _); simpl; [|done].
    by destruct (is_dir w (memory_path self)).
  - intros -> ->. rewrite bool_decide_false by apply is_Some_None. done.
  - intros Hf Hd. rewrite bool_decide_true by done. simpl.
    by rewrite Hd.
Qed.

Lemma str_length_app (a b : string) :
  String.length (a +:+ b) = String.length a + String.length b.
Proof.
  induction a as [|c a IH]; [done|]. rewrite str_app_cons. simpl.
  by rewrite IH.
Qed.

Lemma take_length (n : nat) (s : string) :
  String.length (Py.take n s) = Nat.min n (String.length s).
Proof.
  revert s. induction n as [|n IH]; intros [|c s]; simpl; try done.
  by rewrite IH.
Qed.

Lemma take_take (n m : nat) (s : string) :
  n <= m -> Py.take n (Py.take m s) = Py.take n s.
Proof.
  revert m s. induction n as [|n IH]; intros [|m] [|c s] Hle; simpl;
    try done; try lia.
  rewrite IH by lia. done.
Qed.

Lemma take_prefix (n : nat) (s : string) :
  Py.startswith (Py.take n s) s = true.
Proof.
  revert s. induction n as [|n IH]; intros [|c s]; try done.
  simpl. by rewrite Ascii.eqb_refl, IH.
Qed.

Local Arguments Py.take : simpl never.

Lemma format_turn_text (conv : json) :
  text_turn conv ->
  exists lines,
    format_turn conv = Ok [fst lines; snd lines] /\ bounded_lines lines.
Proof.
  intros (e & um & br & -> & Hu & Hb). unfold format_turn.
  simpl. rewrite Hu, Hb. simpl.
  destruct (Nat.ltb_spec 200 (String.length br)) as [Hlong|Hshort].
  - eexists (_, _). split; [reflexivity|]. repeat split.
    cbn [snd]. simpl. rewrite !str_length_app, take_length.
    generalize (Nat.le_min_l 200 (String.length br)).
    generalize (Nat.min 200 (String.length br)). intros m Hm. simpl. lia.
  - eexists (_, _). split; [reflexivity|]. repeat split.
    cbn [snd]. simpl. lia.
Qed.

Lemma format_chat_turn_text (conv : json) :
  text_turn conv ->
  exists lines,
    format_chat_turn conv = Ok [fst lines; snd lines] /\ bounded_lines lines.
Proof.
  intros (e & um & br & -> & Hu & Hb). unfold format_chat_turn.
  simpl. rewrite Hu, Hb. simpl.
  eexists (_, _). split; [reflexivity|]. repeat split.
  cbn [snd]. simpl. rewrite !str_length_app, take_length.
    generalize (Nat.le_min_l 200 (String.length br)).
    generalize (Nat.min 200 (String.length br)). intros m Hm. simpl. lia.
Qed.

Lemma format_turns_text (turn : json -> result (list string))
    (items : list json) :
  (forall conv, text_turn conv ->
     exists lines,
       turn conv = Ok [fst lines; snd lines] /\ bounded_lines lines) ->
  Forall text_turn items ->
  exists rendered,
    format_turns turn items = Ok (two_lines rendered) /\
    length rendered = length items /\
    Forall bounded_lines rendered.
Proof.
  intros Hturn. induction 1 as [|conv items Hc _ (rendered & Hr & Hl & Hb)].
  - by exists [].
  - destruct (Hturn conv Hc) as (lines & Hlines & Hbound).
    exists (lines :: rendered). simpl. rewrite Hlines, Hr. simpl.
    split; [done|]. split; [by rewrite Hl | by constructor].
Qed.

Lemma slice_from_length {A} (k : Z) (l : list A) :
  ((1 <= k)%Z ->
   length (Py.slice_from (- k) l) = Nat.min (Z.to_nat k) (length l)) /\
  (k = 0%Z -> Py.slice_from (- k) l = l).
Proof.
  unfold Py.slice_from. split.
  - intros Hk. replace (- k <? 0)%Z with true
      by (symmetry; apply Z.ltb_lt; lia).
    rewrite length_drop. lia.
  - by intros ->.
Qed.

Lemma Forall_slice_from {A} (P : A -> Prop) (start : Z) (l : list A) :
  Forall P l -> Forall P (Py.slice_from start l).
Proof. unfold Py.slice_from. destruct (_ <? _)%Z; apply Forall_drop. Qed.



(** *** The chain *)

Lemma preserves_log {X} (f : world -> X) (e : event) :
  (forall w, f (logged e w) = f w) -> preserves f (log e).
Proof. intros H w. apply H. Qed.

Lemma preserves_search_vector_db {X} (f : world -> X)
    (db : option (string -> Z -> outcome (list Document)))
    (query : string) (k : Z) :
  (forall e w, f (logged e w) = f w) ->
  preserves f (search_vector_db db query k).
Proof.
  intros H w. destruct (search_vector_db_run db query k w) as [docs ->].
  apply H.
Qed.

Lemma preserves_format_chat_history {X} (f : world -> X)
    (self : MedicalRAGChain) (user_id : string) :
  (forall w, f (tick w) = f w) ->
  preserves f (_format_chat_history self user_id).
Proof.
  intros H. unfold _format_chat_history.
  apply preserves_bind; [by apply preserves_get_conversation_history|].
  intros conversations. apply preserves_if; [apply preserves_ret|].
  repeat (apply preserves_bind; [apply preserves_lift | intros ?]).
  apply preserves_ret.
Qed.

Lemma preserves_invoke {X} (f : world -> X) (self : MedicalRAGChain)
    (user_id query : string) (return_sources : bool) :
  (forall w, f (tick w) = f w) ->
  (forall e w, f (logged e w) = f w) ->
  preserves f (invoke self user_id query return_sources).
Proof.
  intros Ht Hl. unfold invoke. apply preserves_if; [apply preserves_ret|].
  apply preserves_bind; [by apply preserves_search_vector_db | intros docs].
  apply preserves_bind; [by apply preserves_format_chat_history | intros h].
  apply preserves_bind; [by apply preserves_log | intros _].
  apply preserves_ret.
Qed.

Lemma preserves_run {X} (f : world -> X) (self : MedicalRAGChain)
    (user_id query : string) (return_sources : bool) :
  (forall w, f (tick w) = f w) ->
  (forall e w, f (logged e w) = f w) ->
  preserves f (MedicalRAGChain_run self user_id query return_sources).
Proof.
  intros Ht Hl. unfold MedicalRAGChain_run.
  apply preserves_bind; [by apply preserves_invoke | intros r].
  apply preserves_if; apply preserves_ret.
Qed.

(** X9. Answering a query never writes: [invoke] and [MedicalRAGChain.run]
    leave every file and every directory as they found them, whatever the
    query and whatever the store holds. *)
Theorem answering_never_writes (self : MedicalRAGChain)
    (user_id query : string) (return_sources : bool) (w : world) :
  files (snd (invoke self user_id query return_sources w)) = files w /\
  dirs (snd (invoke self user_id query return_sources w)) = dirs w /\
  files (snd (MedicalRAGChain_run self user_id query return_sources w))
    = files w /\
  dirs (snd (MedicalRAGChain_run self user_id query return_sources w))
    = dirs w.
Proof.
  repeat split.
  - by apply (preserves_invoke files).
  - by apply (preserves_invoke dirs).
  - by apply (preserves_run files).
  - by apply (preserves_run dirs).
Qed.

(** What was logged before does not change the history that the chain
    reads. *)
Lemma format_chat_history_logged (self : MedicalRAGChain) (user_id : string)
    (e : event) (w : world) :
  fst (_format_chat_history self user_id (logged e w))
  = fst (_format_chat_history self user_id w).
Proof.
  destruct (local_run_call 0%Z stamp py_repr
              (memory_manager self) user_id History (logged e w) w)
    as [Hfst _]; [done|].
  simpl in Hfst. unfold _format_chat_history, bind in *.
  destruct (get_conversation_history _ user_id (logged e w)) as [[j1|e1] w1],
           (get_conversation_history _ user_id w) as [[j2|e2] w2];
    simpl in *; try congruence.
  injection Hfst as ->.
  destruct (negb (truthy j2)); [done|]. unfold lift.
  destruct (slice_from (-10) j2) as [recent|]; [|done]. simpl.
  destruct (py_iter recent) as [items|]; [|done]. simpl.
  by destruct (format_turns format_chat_turn items).
Qed.

(** X10. On a query that is not severe, when [invoke] returns it has searched
    the index once, with the query as typed and [retriever_k], and then
    called the chain once, on the query, the retrieved documents joined by
    blank lines and the formatted history of the user; the answer is what
    the chain returned, or the apology with the chain's error, and the
    sources are the retrieved documents, each cut to 200 characters. *)
Theorem invoke_consults_index_then_chain (self : MedicalRAGChain)
    (user_id query : string) (return_sources : bool) (w w' : world)
    (r : Response) :
  _check_severity query = false ->
  invoke self user_id query return_sources w = (Ok r, w') ->
  exists chat_history,
    let docs := retrieved self query in
    let input :=
      {| context := Py.join (NL +:+ NL) (map page_content docs);
         question := query;
         conversation_history := chat_history |} in
    fst (_format_chat_history self user_id w) = Ok chat_history /\
    trace w' = trace w ++ [Searched query (retriever_k self);
                           Generated input] /\
    answer r = match chain self input with
               | Returned text => text
               | Failed message => chain_apology message
               end /\
    map content (sources r) = map (fun doc => Py.take 200 (page_content doc))
                                  docs /\
    map metadata (sources r) = map doc_metadata docs /\
    severity_detected r = false.
Proof.
  intros Hsev. unfold invoke. rewrite Hsev. unfold bind at 1.
  assert (search_vector_db (vector_db self) query (retriever_k self) w
          = (Ok (retrieved self query),
             logged (Searched query (retriever_k self)) w)) as ->.
  { unfold search_vector_db, retrieved, bind, log. simpl.
    destruct (vector_db self) as [similarity_search|]; [|done].
    by destruct (similarity_search query (retriever_k self)). }
  unfold bind at 1.
  pose proof (format_chat_history_logged self user_id
                (Searched query (retriever_k self)) w) as Hhist.
  pose proof (preserves_format_chat_history trace self user_id
                (fun _ => eq_refl)
                (logged (Searched query (retriever_k self)) w)) as Htrace.
  destruct (_format_chat_history self user_id (logged _ w))
    as [[chat_history|e] w1]; [|done].
  simpl in Hhist, Htrace. unfold bind, log, ret. simpl.
  intros [= <- <-]. exists chat_history. simpl.
  split; [done|]. split; [by rewrite Htrace, <- app_assoc|].
  split; [done|]. by rewrite !map_map.
Qed.

(** X11. When the history of the user cannot be read, [invoke] raises on every
    query that is not severe, after the search and before the chain. *)
Theorem invoke_fails_before_the_chain (self : MedicalRAGChain)
    (user_id query : string) (return_sources : bool) (w : world) (e : exn) :
  _check_severity query = false ->
  fst (_format_chat_history self user_id w) = Raise e ->
  fst (invoke self user_id query return_sources w) = Raise e /\
  trace (snd (invoke self user_id query return_sources w))
    = trace w ++ [Searched query (retriever_k self)].
Proof.
  intros Hsev Hraise.
  assert (exists w1,
    invoke self user_id query return_sources w = (Raise e, w1) /\
    trace w1 = trace w ++ [Searched query (retriever_k self)])
    as (w1 & -> & Htrace); [|done].
  unfold invoke. rewrite Hsev. unfold bind at 1.
  destruct (search_vector_db_run (vector_db self) query (retriever_k self) w)
    as [docs ->].
  unfold bind at 1.
  pose proof (format_chat_history_logged self user_id
                (Searched query (retriever_k self)) w) as Hhist.
  pose proof (preserves_format_chat_history trace self user_id
                (fun _ => eq_refl)
                (logged (Searched query (retriever_k self)) w)) as Htrace.
  destruct (_format_chat_history self user_id (logged _ w))
    as [[chat_history|e'] w1]; simpl in *; [congruence|].
  exists w1. split; [congruence | apply Htrace].
Qed.

Lemma sources_lines_listed (i : nat) (docs : list Document)
    (sources_text : string) :
  sources_lines i
    (map (fun doc => {| content := Py.take 200 (page_content doc);
                        metadata := doc_metadata doc |}) docs)
    sources_text
  = sources_text +:+ listed_sources i docs.
Proof.
  revert i sources_text. induction docs as [|doc docs IH]; intros i acc.
  - simpl. by rewrite str_app_nil_r.
  - simpl. rewrite IH, take_take by lia. by rewrite !str_app_assoc.
Qed.

(** X12. [MedicalRAGChain.run] returns the answer of [invoke] alone when the
    sources are not asked for, when the query is severe, and when no
    document was retrieved; otherwise it adds the heading and one numbered
    line for each retrieved document, cut to 100 characters. *)
Theorem run_lists_the_sources (self : MedicalRAGChain)
    (user_id query : string) (w w' : world) (r : Response) :
  (invoke self user_id query false w = (Ok r, w') ->
   MedicalRAGChain_run self user_id query false w = (Ok (answer r), w')) /\
  (_check_severity query = true ->
   MedicalRAGChain_run self user_id query true w
     = (Ok _get_severity_warning, w)) /\
  (_check_severity query = false ->
   invoke self user_id query true w = (Ok r, w') ->
   MedicalRAGChain_run self user_id query true w
     = (Ok (answer r +:+
            match retrieved self query with
            | [] => EmptyString
            | docs => NL +:+ NL +:+ "📚 **Sources:**" +:+ NL
                      +:+ listed_sources 1 docs
            end), w')).
Proof.
  split; [|split].
  - intros Hinvoke. unfold MedicalRAGChain_run, bind. by rewrite Hinvoke.
  - intros Hsev. unfold MedicalRAGChain_run, bind, invoke. by rewrite Hsev.
  - intros Hsev Hinvoke. unfold MedicalRAGChain_run, bind. rewrite Hinvoke.
    assert (sources r
            = map (fun doc => {| content := Py.take 200 (page_content doc);
                                 metadata := doc_metadata doc |})
                  (retrieved self query)) as ->.
    { revert Hinvoke. unfold invoke. rewrite Hsev. unfold bind at 1.
      assert (search_vector_db (vector_db self) query (retriever_k self) w
              = (Ok (retrieved self query),
                 logged (Searched query (retriever_k self)) w)) as ->.
      { unfold search_vector_db, retrieved, bind, log. simpl.
        destruct (vector_db self) as [similarity_search|]; [|done].
        by destruct (similarity_search query (retriever_k self)). }
      unfold bind at 1.
      destruct (_format_chat_history self user_id (logged _ w))
        as [[chat_history|e] w1]; [|done].
      unfold bind, log, ret. simpl. by intros [= <- _]. }
    rewrite sources_lines_listed.
    destruct (retrieved self query) as [|doc docs].
    + simpl. by rewrite str_app_nil_r.
    + cbn [map andb]. by rewrite !str_app_assoc.
Qed.

(** *** The chatbot *)

Lemma handle_user_input_cases (self : MedicalChatbot)
    (user_input : string) (w : world) :
  exists a w',
    _handle_user_input self user_input w = (Ok a, w') /\
    ((exists r w1,
        invoke (rag_chain self) (cb_user_id self) user_input
               (show_sources self) w = (Ok r, w1) /\
        save_conversation (memory_manager (rag_chain self))
          (cb_user_id self) user_input (answer r) None w1 = (Ok tt, w') /\
        a = answer r) \/
     (a = generic_apology /\ files w' = files w /\ dirs w' = dirs w)).
Proof.
  unfold _handle_user_input, try_except, bind at 1.
  pose proof (preserves_invoke files (rag_chain self) (cb_user_id self)
                user_input (show_sources self)
                (fun _ => eq_refl) (fun _ _ => eq_refl) w) as Hf.
  pose proof (preserves_invoke dirs (rag_chain self) (cb_user_id self)
                user_input (show_sources self)
                (fun _ => eq_refl) (fun _ _ => eq_refl) w) as Hd.
  destruct (invoke _ _ _ _ w) as [[r|e] w1]; simpl in Hf, Hd.
  2:{ exists generic_apology, w1. split; [done|]. by right. }
  unfold bind.
  pose proof (save_conversation_outcome MAX_CONVERSATION_HISTORY stamp
                (memory_manager (rag_chain self)) (cb_user_id self)
                user_input (answer r) None w1) as Hsave.
  pose proof (preserves_save_conversation MAX_CONVERSATION_HISTORY stamp dirs
                (memory_manager (rag_chain self)) (cb_user_id self)
                (fun _ => eq_refl) (fun _ _ => eq_refl)
                user_input (answer r) None w1) as Hdirs.
  destruct (save_conversation _ _ _ _ _ w1) as [[[]|e] w2] eqn:Esave;
    simpl in *.
  - exists (answer r), w2. split; [done|]. left. by exists r, w1.
  - exists generic_apology, w2. split; [done|]. right.
    destruct Hsave as [(e' & _ & Hf2)|(d & h & w3 & _ & _ & _ & Hok)];
      [|done].
    split; [done|]. split; congruence.
Qed.


(** X14. When the user's file cannot be written, every input, a severe one
    too, is answered by the fixed apology, and no file is written. *)
Theorem answer_is_withheld_when_not_saved (self : MedicalChatbot)
    (user_input : string) (w : world) :
  can_write w (_get_user_file_path (memory_manager (rag_chain self))
                 (cb_user_id self)) = false ->
  exists w',
    _handle_user_input self user_input w = (Ok generic_apology, w') /\
    files w' = files w.
Proof.
  intros Hw.
  destruct (handle_user_input_cases self user_input w)
    as (a & w' & Hrun & [(r & w1 & Hinvoke & Hsave & _)|(-> & Hf & _)]);
    [|by exists w'].
  exfalso.
  pose proof (preserves_invoke files (rag_chain self) (cb_user_id self)
                user_input (show_sources self)
                (fun _ => eq_refl) (fun _ _ => eq_refl) w) as Hf.
  pose proof (preserves_invoke dirs (rag_chain self) (cb_user_id self)
                user_input (show_sources self)
                (fun _ => eq_refl) (fun _ _ => eq_refl) w) as Hd.
  rewrite Hinvoke in Hf, Hd. simpl in Hf, Hd.
  pose proof (save_conversation_outcome MAX_CONVERSATION_HISTORY stamp
                (memory_manager (rag_chain self)) (cb_user_id self)
                user_input (answer r) None w1) as Hout.
  rewrite Hsave in Hout. simpl in Hout.
  destruct Hout as [(e' & He & _)|(d & h & w3 & _ & _ & Hcan & _)]; [done|].
  rewrite (can_write_files w1 w) in Hcan by done. congruence.
Qed.

(** X15. Everything typed after [/exit] is ignored, and the end of the input
    ends the session as [/exit] does. *)
Theorem loop_stops_at_exit (self : MedicalChatbot)
    (before after : list string) (w : world) :
  conversation_loop self (before ++ "/exit" :: after) w
  = conversation_loop self before w.
Proof.
  revert self w. induction before as [|line before IH]; intros self w.
  - reflexivity.
  - cbn [app conversation_loop].
    destruct (String.eqb line EmptyString); [apply IH|].
    destruct (Py.startswith "/" line).
    + destruct (String.eqb line "/exit"); [done|]. unfold bind.
      destruct (_process_command self line w) as [[processed|e] w1];
        [apply IH | done].
    + unfold bind.
      destruct (_handle_user_input self line w) as [[a|e] w1];
        [apply IH | done].
Qed.


Lemma invoke_trace (self : MedicalRAGChain) (user_id query : string)
    (return_sources : bool) (w : world) :
  exists added,
    trace (snd (invoke self user_id query return_sources w))
      = trace w ++ added /\
    length (List.filter is_generated added) <= 1 /\
    length (List.filter is_searched added) <= 1.
Proof.
  unfold invoke. destruct (_check_severity query).
  { exists []. simpl. rewrite app_nil_r. repeat split; lia. }
  unfold bind at 1.
  destruct (search_vector_db_run (vector_db self) query (retriever_k self) w)
    as [docs ->].
  unfold bind at 1.
  pose proof (preserves_format_chat_history trace self user_id
                (fun _ => eq_refl)
                (logged (Searched query (retriever_k self)) w)) as Htrace.
  destruct (_format_chat_history self user_id (logged _ w))
    as [[chat_history|e] w1]; simpl in Htrace.
  - unfold bind, log, ret. simpl. eexists [_; _].
    rewrite Htrace, <- app_assoc. simpl. split; [reflexivity|].
    simpl. lia.
  - exists [Searched query (retriever_k self)]. simpl. split; [done|]. lia.
Qed.

Lemma handle_user_input_trace (self : MedicalChatbot) (user_input : string)
    (w : world) :
  exists added,
    trace (snd (_handle_user_input self user_input w)) = trace w ++ added /\
    length (List.filter is_generated added) <= 1 /\
    length (List.filter is_searched added) <= 1.
Proof.
  destruct (invoke_trace (rag_chain self) (cb_user_id self) user_input
              (show_sources self) w) as (added & Ht & Hg & Hs).
  exists added. split; [|done].
  unfold _handle_user_input, try_except, bind at 1.
  destruct (invoke _ _ _ _ w) as [[r|e] w1]; simpl in Ht; [|done].
  unfold bind.
  pose proof (preserves_save_conversation MAX_CONVERSATION_HISTORY stamp trace
                (memory_manager (rag_chain self)) (cb_user_id self)
                (fun _ => eq_refl) (fun _ _ => eq_refl)
                user_input (answer r) None w1) as Hsave.
  destruct (save_conversation _ _ _ _ _ w1) as [[[]|e] w2]; simpl in *;
    congruence.
Qed.

Lemma preserves_process_command (self : MedicalChatbot) (command : string) :
  preserves trace (_process_command self command).
Proof.
  unfold _process_command.
  repeat (apply preserves_if; [try apply preserves_ret|]);
    try apply preserves_ret.
  - apply preserves_bind;
      [by apply preserves_get_conversation_history | intros history].
    repeat (apply preserves_bind; [apply preserves_lift | intros ?]).
    apply preserves_ret.
  - apply preserves_bind; [|intros; apply preserves_ret].
    by apply preserves_clear_user_memory.
Qed.

(** X17. In a session, the index is searched and the chain is called at most
    once for each line that is not blank and not a command; the commands
    and the blank lines reach neither. *)
Theorem one_chain_call_per_message (self : MedicalChatbot)
    (inputs : list string) (w : world) :
  exists added,
    trace (snd (conversation_loop self inputs w)) = trace w ++ added /\
    length (List.filter is_generated added)
      <= length (List.filter plain_line inputs) /\
    length (List.filter is_searched added)
      <= length (List.filter plain_line inputs).
Proof.
  revert self w. induction inputs as [|line inputs IH]; intros self w.
  { exists []. simpl. rewrite app_nil_r. repeat split; lia. }
  cbn [conversation_loop List.filter].
  destruct (String.eqb line EmptyString) eqn:Hblank.
  { assert (plain_line line = false) as ->
      by (unfold plain_line; by rewrite Hblank).
    apply IH. }
  destruct (Py.startswith "/" line) eqn:Hslash.
  - assert (plain_line line = false) as ->
      by (unfold plain_line; by rewrite Hblank, Hslash).
    destruct (String.eqb line "/exit").
    { exists []. simpl. split; [by rewrite app_nil_r | lia]. }
    unfold bind.
    pose proof (preserves_process_command self line w) as Ht.
    destruct (_process_command self line w) as [[processed|e] w1];
      simpl in Ht.
    + destruct (IH (snd processed) w1) as (added & Ha & Hg & Hs).
      exists added. by rewrite Ha, Ht.
    + exists []. simpl. split; [by rewrite app_nil_r, Ht | lia].
  - assert (plain_line line = true) as ->
      by (unfold plain_line; by rewrite Hblank, Hslash).
    unfold bind.
    destruct (handle_user_input_trace self line w)
      as (added1 & Ht & Hg1 & Hs1).
    destruct (_handle_user_input self line w) as [[a|e] w1]; simpl in Ht.
    + destruct (IH self w1) as (added2 & Ha & Hg2 & Hs2).
      exists (added1 ++ added2).
      rewrite Ha, Ht, <- app_assoc, !List.filter_app, !length_app.
      simpl. split; [done|]. lia.
    + exists added1. simpl. split; [done|]. lia.
Qed.

Lemma process_command_same_session (s1 s2 : MedicalChatbot)
    (command : string) (w : world) :
  rag_chain s1 = rag_chain s2 -> cb_user_id s1 = cb_user_id s2 ->
  (exists e w', _process_command s1 command w = (Raise e, w') /\
                _process_command s2 command w = (Raise e, w')) \/
  (exists b s1' s2' w',
     _process_command s1 command w = (Ok (b, s1'), w') /\
     _process_command s2 command w = (Ok (b, s2'), w') /\
     rag_chain s1' = rag_chain s2' /\ cb_user_id s1' = cb_user_id s2').
Proof.
  destruct s1 as [c u f1], s2 as [c' u' f2]. simpl. intros <- <-.
  unfold _process_command. cbn [rag_chain cb_user_id show_sources].
  destruct (String.eqb _ "/help").
  { right. by eexists _, _, _, _. }
  destruct (String.eqb _ "/history").
  { unfold bind.
    destruct (get_conversation_history (memory_manager c) u w)
      as [[history|e] w1]; [|left; by eexists _, _].
    unfold lift. destruct (py_len history); [|left; by eexists _, _].
    destruct (slice_from (-5) history) as [recent|];
      [|left; by eexists _, _].
    destruct (py_iter recent) as [items|]; [|left; by eexists _, _].
    destruct (history_lines items); [|left; by eexists _, _].
    right. by eexists _, _, _, _. }
  destruct (String.eqb _ "/clear").
  { unfold bind.
    destruct (clear_user_memory (memory_manager c) u w) as [[[]|e] w1];
      [right; by eexists _, _, _, _ | left; by eexists _, _]. }
  destruct (String.eqb _ "/sources").
  { right. by eexists _, _, _, _. }
  destruct (String.eqb _ "/exit"); right; by eexists _, _, _, _.
Qed.

Lemma handle_user_input_same_session (s1 s2 : MedicalChatbot)
    (user_input : string) (w : world) :
  rag_chain s1 = rag_chain s2 -> cb_user_id s1 = cb_user_id s2 ->
  _handle_user_input s1 user_input w = _handle_user_input s2 user_input w.
Proof.
  destruct s1 as [c u f1], s2 as [c' u' f2]. simpl. by intros <- <-.
Qed.

Lemma loop_same_session (s1 s2 : MedicalChatbot) (inputs : list string)
    (w : world) :
  rag_chain s1 = rag_chain s2 -> cb_user_id s1 = cb_user_id s2 ->
  snd (conversation_loop s1 inputs w) = snd (conversation_loop s2 inputs w) /\
  same_end (fst (conversation_loop s1 inputs w))
           (fst (conversation_loop s2 inputs w)).
Proof.
  revert s1 s2 w. induction inputs as [|line inputs IH]; intros s1 s2 w Hc Hu.
  { by simpl. }
  cbn [conversation_loop].
  destruct (String.eqb line EmptyString); [by apply IH|].
  destruct (Py.startswith "/" line).
  - destruct (String.eqb line "/exit"); [by simpl|]. unfold bind.
    destruct (process_command_same_session s1 s2 line w Hc Hu)
      as [(e & w' & -> & ->)|(b & s1' & s2' & w' & -> & -> & Hc' & Hu')].
    + by simpl.
    + by apply IH.
  - unfold bind.
    rewrite (handle_user_input_same_session s1 s2 line w Hc Hu).
    destruct (_handle_user_input s2 line w) as [[a|e] w1];
      [by apply IH | by simpl].
Qed.

(** X18. The setting of the source citations, which [/sources] toggles, changes
    nothing: with either setting [_handle_user_input] returns the same
    answer and leaves the same world, and a whole session leaves the same
    files, the same calls to the index and the chain, and ends alike. *)
Theorem source_citations_change_nothing (self : MedicalChatbot)
    (shown : bool) (user_input : string) (inputs : list string) (w : world) :
  _handle_user_input (with_sources shown self) user_input w
    = _handle_user_input self user_input w /\
  snd (conversation_loop (with_sources shown self) inputs w)
    = snd (conversation_loop self inputs w) /\
  same_end (fst (conversation_loop (with_sources shown self) inputs w))
           (fst (conversation_loop self inputs w)).
Proof.
  split.
  - by apply handle_user_input_same_session.
  - by apply loop_same_session.
Qed.

(** *** utils/helpers.py *)

Lemma slice_to_prefix (stop : Z) (s : string) :
  Py.startswith (PyStr.slice_to stop s) s = true.
Proof. unfold PyStr.slice_to. destruct (_ <? _)%Z; apply take_prefix. Qed.

(** X19. When the suffix is no longer than [max_length], the result of
    [truncate_text] has at most [max_length] characters and truncating it
    again changes nothing; a text that was too long comes back with
    exactly [max_length] characters, as a prefix of the text followed by
    the suffix. *)
Theorem truncate_text_fits (text suffix : string) (max_length : Z) :
  (Z.of_nat (String.length suffix) <= max_length)%Z ->
  let short := truncate_text text max_length suffix in
  (Z.of_nat (String.length short) <= max_length)%Z /\
  truncate_text short max_length suffix = short /\
  ((max_length < Z.of_nat (String.length text))%Z ->
   Z.of_nat (String.length short) = max_length /\
   exists kept, short = kept +:+ suffix /\ Py.startswith kept text = true).
Proof.
  intros Hsuffix short.
  assert ((max_length < Z.of_nat (String.length text))%Z ->
          Z.of_nat (String.length short) = max_length /\
          exists kept, short = kept +:+ suffix /\
                       Py.startswith kept text = true) as Hlong.
  { intros Hlong. subst short. unfold truncate_text.
    destruct (Z.leb_spec (Z.of_nat (String.length text)) max_length);
      [lia|].
    split; [|eexists; split; [reflexivity | apply slice_to_prefix]].
    rewrite str_length_app. unfold PyStr.slice_to.
    destruct (Z.ltb_spec (max_length - Z.of_nat (String.length suffix)) 0);
      [lia|].
    rewrite take_length. lia. }
  assert ((Z.of_nat (String.length short) <= max_length)%Z) as Hfits.
  { destruct (Z.leb_spec (Z.of_nat (String.length text)) max_length)
      as [Hle|Hgt].
    - subst short. unfold truncate_text.
      destruct (Z.leb_spec (Z.of_nat (String.length text)) max_length); lia.
    - destruct (Hlong Hgt) as [-> _]. lia. }
  split; [done|]. split; [|done].
  unfold truncate_text at 1.
  by destruct (Z.leb_spec (Z.of_nat (String.length short)) max_length);
    [|lia].
Qed.

(** X20. When the suffix is longer than [max_length], [truncate_text] breaks
    its bound: every text longer than [max_length] comes back longer than
    [max_length]. *)
Theorem truncate_text_overlong_suffix (text suffix : string)
    (max_length : Z) :
  (max_length < Z.of_nat (String.length suffix))%Z ->
  (max_length < Z.of_nat (String.length text))%Z ->
  (max_length
   < Z.of_nat (String.length (truncate_text text max_length suffix)))%Z.
Proof.
  intros Hsuffix Hlong. unfold truncate_text.
  destruct (Z.leb_spec (Z.of_nat (String.length text)) max_length); [lia|].
  rewrite str_length_app. lia.
Qed.

Lemma filter_chars_all (keep : ascii -> bool) (s : string) :
  (forall c, In c (chars s) -> keep c = true) <->
  Py.filter_chars keep s = s.
Proof.
  induction s as [|x s IH]; [done|].
  change (chars (String x s)) with (x :: chars s). cbn [Py.filter_chars].
  split.
  - intros H. rewrite (H x) by (by left). f_equal. apply IH.
    intros c Hc. apply H. by right.
  - destruct (keep x) eqn:Hx.
    + intros [= Hs] c [<-|Hc]; [done|]. by apply IH.
    + intros Hs. exfalso.
      assert (In x (chars (Py.filter_chars keep s))) as Hin
        by (rewrite Hs; by left).
      apply filter_chars_In in Hin as [_ ?]. congruence.
Qed.


Lemma retry_from_success {A} (func : nat -> outcome A)
    (max_retries delay : Z) (a : A) (k first done_calls : nat)
    (slept_so_far : Z) :
  (0 <= delay)%Z ->
  (Z.of_nat (first + k) < max_retries)%Z ->
  (forall j, j < k -> exists message, func (done_calls + j) = Failed message) ->
  func (done_calls + k) = Returned a ->
  retry_from func max_retries delay
    (seq first (Z.to_nat max_retries - first)) done_calls slept_so_far
  = {| ended := Returned (Some a);
       calls := done_calls + k + 1;
       slept := slept_so_far
                + delay * (2 ^ Z.of_nat (first + k) - 2 ^ Z.of_nat first) |}.
Proof.
  intros Hdelay. revert first done_calls slept_so_far.
  induction k as [|k IH]; intros first done_calls slept_so_far Hk Hfail Hok.
  - replace (Z.to_nat max_retries - first)
      with (S (Z.to_nat max_retries - S first)) by lia.
    cbn [seq retry_from]. rewrite Nat.add_0_r in Hok. rewrite Hok.
    f_equal; [lia|]. rewrite Nat.add_0_r. lia.
  - replace (Z.to_nat max_retries - first)
      with (S (Z.to_nat max_retries - S first)) by lia.
    cbn [seq retry_from].
    destruct (Hfail 0) as [message Hm]; [lia|].
    rewrite Nat.add_0_r in Hm. rewrite Hm.
    destruct (Z.eqb_spec (Z.of_nat first) (max_retries - 1)); [lia|].
    assert (0 < 2 ^ Z.of_nat first)%Z as Hpow by (apply Z.pow_pos_nonneg; lia).
    destruct (Z.ltb_spec (delay * 2 ^ Z.of_nat first) 0); [nia|].
    rewrite IH.
    + f_equal; [lia|].
      replace (Z.of_nat (S first + k)) with (Z.of_nat (first + S k)) by lia.
      replace (Z.of_nat (S first)) with (Z.succ (Z.of_nat first)) by lia.
      rewrite Z.pow_succ_r by lia. lia.
    + lia.
    + intros j Hj. destruct (Hfail (S j)) as [m' Hm']; [lia|].
      exists m'. by rewrite <- Hm', Nat.add_succ_comm.
    + by rewrite <- Hok, Nat.add_succ_comm.
Qed.

Lemma retry_from_exhausted {A} (func : nat -> outcome A)
    (max_retries delay : Z) (message : string) (k first done_calls : nat)
    (slept_so_far : Z) :
  (0 <= delay)%Z ->
  Z.of_nat (first + k) = (max_retries - 1)%Z ->
  (forall j, j < k -> exists m, func (done_calls + j) = Failed m) ->
  func (done_calls + k) = Failed message ->
  retry_from func max_retries delay
    (seq first (Z.to_nat max_retries - first)) done_calls slept_so_far
  = {| ended := Failed message;
       calls := done_calls + k + 1;
       slept := slept_so_far
                + delay * (2 ^ Z.of_nat (first + k) - 2 ^ Z.of_nat first) |}.
Proof.
  intros Hdelay. revert first done_calls slept_so_far.
  induction k as [|k IH]; intros first done_calls slept_so_far Hk Hfail Hlast.
  - replace (Z.to_nat max_retries - first)
      with (S (Z.to_nat max_retries - S first)) by lia.
    cbn [seq retry_from]. rewrite Nat.add_0_r in Hlast. rewrite Hlast.
    destruct (Z.eqb_spec (Z.of_nat first) (max_retries - 1)); [|lia].
    f_equal; [lia|]. rewrite Nat.add_0_r. lia.
  - replace (Z.to_nat max_retries - first)
      with (S (Z.to_nat max_retries - S first)) by lia.
    cbn [seq retry_from].
    destruct (Hfail 0) as [m Hm]; [lia|].
    rewrite Nat.add_0_r in Hm. rewrite Hm.
    destruct (Z.eqb_spec (Z.of_nat first) (max_retries - 1)); [lia|].
    assert (0 < 2 ^ Z.of_nat first)%Z as Hpow by (apply Z.pow_pos_nonneg; lia).
    destruct (Z.ltb_spec (delay * 2 ^ Z.of_nat first) 0); [nia|].
    rewrite (IH (S first)).
    + f_equal; [lia|].
      replace (Z.of_nat (S first + k)) with (Z.of_nat (first + S k)) by lia.
      replace (Z.of_nat (S first)) with (Z.succ (Z.of_nat first)) by lia.
      rewrite Z.pow_succ_r by lia. lia.
    + lia.
    + intros j Hj. destruct (Hfail (S j)) as [m' Hm']; [lia|].
      exists m'. by rewrite <- Hm', Nat.add_succ_comm.
    + by rewrite <- Hlast, Nat.add_succ_comm.
Qed.

(** X22. With a delay that is not negative, when the call number [k] of [func],
    counted from 0, is the first that returns and [k < max_retries],
    [retry_operation] returns its value after [k + 1] calls, having slept
    [delay * (2^k - 1)] seconds. *)
Theorem retry_returns_first_success {A} (func : nat -> outcome A)
    (max_retries delay : Z) (k : nat) (a : A) :
  (0 <= delay)%Z ->
  (Z.of_nat k < max_retries)%Z ->
  (forall j, j < k -> exists message, func j = Failed message) ->
  func k = Returned a ->
  retry_operation func max_retries delay
  = {| ended := Returned (Some a);
       calls := k + 1;
       slept := delay * (2 ^ Z.of_nat k - 1) |}.
Proof.
  intros Hdelay Hk Hfail Hok. unfold retry_operation.
  replace (Z.to_nat max_retries) with (Z.to_nat max_retries - 0) by lia.
  rewrite (retry_from_success func max_retries delay a k 0 0 0); try done.
Qed.

(** X23. With no attempt allowed, [retry_operation] returns [None] without
    calling [func]; with a delay that is not negative, when all the
    [max_retries] calls fail it raises the failure of the last one, after
    sleeping [delay * (2^(max_retries - 1) - 1)] seconds: there is no sleep
    after the last call. *)
Theorem retry_gives_up (A : Type) (func : nat -> outcome A)
    (max_retries delay : Z) :
  ((max_retries <= 0)%Z ->
   retry_operation func max_retries delay
   = {| ended := Returned None; calls := 0; slept := 0 |}) /\
  ((1 <= max_retries)%Z -> (0 <= delay)%Z ->
   forall message,
   (forall j, (Z.of_nat j < max_retries)%Z ->
              exists m, func j = Failed m) ->
   func (Z.to_nat max_retries - 1) = Failed message ->
   retry_operation func max_retries delay
   = {| ended := Failed message;
        calls := Z.to_nat max_retries;
        slept := delay * (2 ^ (max_retries - 1) - 1) |}).
Proof.
  split.
  - intros Hmax. unfold retry_operation.
    by replace (Z.to_nat max_retries) with 0 by lia.
  - intros Hmax Hdelay message Hfail Hlast. unfold retry_operation.
    replace (Z.to_nat max_retries) with (Z.to_nat max_retries - 0) at 1
      by lia.
    rewrite (retry_from_exhausted func max_retries delay message
               (Z.to_nat max_retries - 1) 0 0 0); try done.
    + f_equal; [lia|]. simpl.
      replace (Z.of_nat (Z.to_nat max_retries - 1)) with (max_retries - 1)%Z
        by lia.
      lia.
    + simpl. lia.
    + intros j Hj. apply Hfail. lia.
Qed.

(** *** Stripped lines *)

Lemma lstrip_no_space (s : string) :
  match PyStr.lstrip s with
  | EmptyString => True
  | String c _ => PyStr.is_space c = false
  end.
Proof.
  induction s as [|c s IH]; [done|]. cbn [PyStr.lstrip].
  by destruct (PyStr.is_space c) eqn:Hc.
Qed.

Lemma rstrip_first (c : ascii) (s : string) :
  PyStr.is_space c = false ->
  exists kept, PyStr.rstrip (String c s) = String c kept.
Proof.
  intros Hc. cbn [PyStr.rstrip]. rewrite Hc.
  destruct (PyStr.rstrip s); eauto.
Qed.

Lemma rstrip_rstrip (s : string) :
  PyStr.rstrip (PyStr.rstrip s) = PyStr.rstrip s.
Proof.
  induction s as [|c s IH]; [done|]. cbn [PyStr.rstrip].
  destruct (PyStr.rstrip s) as [|d kept] eqn:Hs.
  - destruct (PyStr.is_space c) eqn:Hc; [done|].
    cbn [PyStr.rstrip]. by rewrite Hc.
  - change (PyStr.rstrip (String c (String d kept)))
      with (match PyStr.rstrip (String d kept) with
            | EmptyString =>
                if PyStr.is_space c then EmptyString
                else String c EmptyString
            | String x y => String c (String x y)
            end).
    by rewrite IH.
Qed.

Lemma strip_no_space (s : string) :
  match PyStr.strip s with
  | EmptyString => True
  | String c _ => PyStr.is_space c = false
  end.
Proof.
  unfold PyStr.strip. pose proof (lstrip_no_space s) as H.
  destruct (PyStr.lstrip s) as [|c t]; [done|].
  destruct (rstrip_first c t H) as [kept ->]. done.
Qed.

Lemma strip_strip (s : string) : PyStr.strip (PyStr.strip s) = PyStr.strip s.
Proof.
  pose proof (strip_no_space s) as H. unfold PyStr.strip at 1.
  destruct (PyStr.strip s) as [|c t] eqn:Hs; [done|].
  cbn [PyStr.lstrip]. rewrite H, <- Hs. unfold PyStr.strip.
  apply rstrip_rstrip.
Qed.

(** *** src/document_loader.py *)


Lemma batches_concat {A} (k : nat) (l : list A) :
  length l <= k * batch_size ->
  concat (map (fun i => firstn batch_size (skipn i l))
              (map (fun j => j * batch_size) (seq 0 k))) = l.
Proof.
  revert l. induction k as [|k IH]; intros l Hl.
  - destruct l; [done | simpl in Hl; lia].
  - cbn [seq map concat]. rewrite <- seq_shift, !map_map.
    transitivity (firstn batch_size l ++ skipn batch_size l);
      [|apply firstn_skipn].
    f_equal.
    etransitivity; [|apply (IH (skipn batch_size l))].
    + rewrite map_map. f_equal. apply map_ext. intros j.
      rewrite skipn_skipn. do 2 f_equal. lia.
    + rewrite length_skipn. lia.
Qed.

Lemma url_batches_concat (urls : list string) :
  concat (url_batches urls) = urls.
Proof.
  unfold url_batches, range_step.
  apply (batches_concat ((length urls + batch_size - 1) / batch_size) urls).
  unfold batch_size.
  pose proof (Nat.div_mod_eq (length urls + 5 - 1) 5) as Hdiv.
  pose proof (Nat.mod_upper_bound (length urls + 5 - 1) 5) as Hmod.
  lia.
Qed.

(** X25. The batches that [load_url_documents] requests hold every URL once,
    in order, and each batch holds between one and five URLs. *)
Theorem url_batches_partition (urls : list string) :
  concat (url_batches urls) = urls /\
  Forall (fun batch => 1 <= length batch <= 5) (url_batches urls) /\
  length (url_batches urls) = (length urls + 4) / 5.
Proof.
  split; [apply url_batches_concat|].
  unfold url_batches, range_step, batch_size.
  replace (length urls + 5 - 1) with (length urls + 4) by lia.
  pose proof (Nat.div_mod_eq (length urls + 4) 5) as Hdiv.
  pose proof (Nat.mod_upper_bound (length urls + 4) 5) as Hmod.
  split.
  - rewrite map_map. apply List.Forall_forall.
    intros batch (j & <- & Hj%in_seq)%in_map_iff.
    rewrite length_firstn, length_skipn. lia.
  - by rewrite !length_map, length_seq.
Qed.

Lemma load_each_calls (loader : web_loader) (batch : list string)
    (made : list (list string)) :
  snd (load_each loader batch made) = made ++ map (fun url => [url]) batch.
Proof.
  revert made. induction batch as [|url batch IH]; intros made.
  - simpl. by rewrite app_nil_r.
  - cbn [load_each]. specialize (IH (made ++ [[url]])).
    destruct (load_each loader batch (made ++ [[url]])) as [more made'].
    simpl in *. by rewrite IH, <- app_assoc.
Qed.

Lemma load_each_all_fail (loader : web_loader) (batch : list string)
    (made : list (list string)) :
  (forall made' urls, exists message, loader made' urls = Failed message) ->
  fst (load_each loader batch made) = [].
Proof.
  intros Hfail. revert made. induction batch as [|url batch IH]; intros made.
  - done.
  - cbn [load_each]. specialize (IH (made ++ [[url]])).
    destruct (load_each loader batch (made ++ [[url]])) as [more made'].
    destruct (Hfail made [url]) as [message ->]. simpl in *. by rewrite IH.
Qed.

Lemma load_batches_all_return (loader : web_loader)
    (batches : list (list string)) (made : list (list string)) :
  (forall made' urls, exists docs, loader made' urls = Returned docs) ->
  snd (load_batches loader batches made) = made ++ batches.
Proof.
  intros Hok. revert made.
  induction batches as [|batch batches IH]; intros made.
  - simpl. by rewrite app_nil_r.
  - cbn [load_batches]. destruct (Hok made batch) as [docs ->].
    specialize (IH (made ++ [batch])).
    destruct (load_batches loader batches (made ++ [batch]))
      as [more made2].
    simpl in *. by rewrite IH, <- app_assoc.
Qed.

Lemma load_batches_all_fail (loader : web_loader)
    (batches : list (list string)) (made : list (list string)) :
  (forall made' urls, exists message, loader made' urls = Failed message) ->
  load_batches loader batches made
  = ([], made ++ flat_map (fun batch => batch :: map (fun url => [url]) batch)
                          batches).
Proof.
  intros Hfail. revert made.
  induction batches as [|batch batches IH]; intros made.
  - simpl. by rewrite app_nil_r.
  - cbn [load_batches flat_map]. destruct (Hfail made batch) as [message ->].
    pose proof (load_each_calls loader batch (made ++ [batch])) as Hcalls.
    pose proof (load_each_all_fail loader batch (made ++ [batch]) Hfail)
      as Hdocs.
    destruct (load_each loader batch (made ++ [batch])) as [docs made1].
    simpl in Hcalls, Hdocs. subst docs made1. rewrite IH. simpl.
    by rewrite <- !app_assoc.
Qed.

Lemma load_batches_calls (loader : web_loader)
    (batches : list (list string)) (made : list (list string)) :
  exists added,
    snd (load_batches loader batches made) = made ++ added /\
    length batches <= length added
      <= length batches + length (concat batches).
Proof.
  revert made. induction batches as [|batch batches IH]; intros made.
  - exists []. simpl. rewrite app_nil_r. split; [done | lia].
  - cbn [load_batches].
    assert (exists first,
      snd (match loader made batch with
           | Returned docs => (docs, made ++ [batch])
           | Failed _ => load_each loader batch (made ++ [batch])
           end) = made ++ first /\
      1 <= length first <= 1 + length batch) as (first & Hfirst & Hlen).
    { destruct (loader made batch) as [docs|message].
      - exists [batch]. simpl. split; [done | lia].
      - exists (batch :: map (fun url => [url]) batch).
        rewrite load_each_calls, <- app_assoc. simpl.
        rewrite length_map. split; [done | lia]. }
    destruct (match loader made batch with
              | Returned docs => (docs, made ++ [batch])
              | Failed _ => load_each loader batch (made ++ [batch])
              end) as [docs made1].
    simpl in Hfirst. subst made1.
    destruct (IH (made ++ first)) as (added & Hadded & Hbound).
    destruct (load_batches loader batches (made ++ first)) as [more made2].
    simpl in Hadded. subst made2. exists (first ++ added). simpl.
    rewrite <- app_assoc, !length_app. split; [done | lia].
Qed.

(** X26. [load_url_documents] asks the loader for each batch once when no
    request fails; when every request fails it asks for each batch and then
    for each of its URLs alone, and returns no document; in every case the
    number of requests lies between the number of batches and that number
    plus the number of URLs. *)
Theorem url_requests (loader : web_loader) (lines : list string) :
  let urls := parse_url_lines lines in
  let run := load_url_documents loader (Some (Returned lines)) in
  ((forall made batch, exists docs, loader made batch = Returned docs) ->
   snd run = url_batches urls) /\
  ((forall made batch, exists message, loader made batch = Failed message) ->
   run = ([], flat_map (fun batch => batch :: map (fun url => [url]) batch)
                       (url_batches urls))) /\
  length (url_batches urls) <= length (snd run)
    <= length (url_batches urls) + length urls.
Proof.
  intros urls run. subst run. unfold load_url_documents. fold urls.
  destruct urls as [|url urls'] eqn:Hurls.
  { repeat split; try done; simpl; lia. }
  rewrite <- Hurls. split; [|split].
  - intros Hok. by rewrite load_batches_all_return.
  - intros Hfail. by rewrite load_batches_all_fail.
  - destruct (load_batches_calls loader (url_batches urls) [])
      as (added & -> & Hbound).
    rewrite url_batches_concat in Hbound. simpl. done.
Qed.

(** *** A whole session *)

Lemma list_users_world (self : MemoryManager) (w : world) :
  snd (list_users self w) = w.
Proof.
  unfold list_users, bind, os_path_exists, os_listdir, ret. simpl.
  destruct (_ || _); simpl; [|done].
  by destruct (is_dir w (memory_path self)).
Qed.

Lemma authenticate_user_run (self : MedicalChatbot) (inputs : list string)
    (w : world) :
  snd (_authenticate_user self inputs w) = w /\
  match fst (list_users (memory_manager (rag_chain self)) w) with
  | Raise e => fst (_authenticate_user self inputs w) = Raise e
  | Ok _ =>
      exists name rest used,
        fst (_authenticate_user self inputs w) = Ok (name, rest) /\
        PyStr.strip name = name /\ inputs = used ++ rest
  end.
Proof.
  pose proof (list_users_world (memory_manager (rag_chain self)) w) as Hw.
  induction inputs as [|line inputs [IHw IH]].
  - cbn [_authenticate_user]. unfold bind.
    destruct (list_users _ w) as [[users|e] w1]; simpl in *; subst;
      [|done].
    split; [done|]. by exists "/exit", [], [].
  - cbn [_authenticate_user].
    destruct (String.eqb (PyStr.strip line) EmptyString).
    { split; [done|].
      destruct (fst (list_users _ w)); [|done].
      destruct IH as (name & rest & used & Hrun & Hname & ->).
      by exists name, rest, (line :: used). }
    destruct (String.eqb (Py.lower (PyStr.strip line)) "new").
    + unfold bind.
      destruct (list_users _ w) as [[users|e] w1]; simpl in *; subst;
        [|done].
      split; [done|]. destruct inputs as [|next rest].
      * by exists "/exit", [], [line].
      * exists (PyStr.strip next), rest, [line; next].
        split; [done|]. split; [apply strip_strip | done].
    + unfold bind.
      destruct (list_users _ w) as [[users|e] w1]; simpl in *; subst;
        [|done].
      split; [done|]. exists (PyStr.strip line), inputs, [line].
      split; [done|]. split; [apply strip_strip | done].
Qed.

(** X27. [_authenticate_user] writes nothing and records nothing.  It raises
    only when listing the users does; otherwise it returns a stripped name
    and the lines that it has not read. *)
Theorem authentication_reads_a_stripped_name (self : MedicalChatbot)
    (inputs : list string) (w : world) :
  snd (_authenticate_user self inputs w) = w /\
  match fst (list_users (memory_manager (rag_chain self)) w) with
  | Raise e => fst (_authenticate_user self inputs w) = Raise e
  | Ok _ =>
      exists name rest used,
        fst (_authenticate_user self inputs w) = Ok (name, rest) /\
        PyStr.strip name = name /\ inputs = used ++ rest
  end.
Proof. apply authenticate_user_run. Qed.

Lemma invoke_returns (self : MedicalRAGChain) (user_id query : string)
    (return_sources : bool) (w : world) :
  can_chat (memory_manager self) user_id w = true ->
  exists r w1,
    invoke self user_id query return_sources w = (Ok r, w1) /\
    files w1 = files w /\ dirs w1 = dirs w.
Proof.
  intros Hready.
  pose proof (preserves_invoke files self user_id query return_sources
                (fun _ => eq_refl) (fun _ _ => eq_refl) w) as Hf.
  pose proof (preserves_invoke dirs self user_id query return_sources
                (fun _ => eq_refl) (fun _ _ => eq_refl) w) as Hd.
  assert (exists r w1, invoke self user_id query return_sources w
                       = (Ok r, w1)) as (r & w1 & Hrun).
  { unfold invoke. destruct (_check_severity query); [by eexists _, _|].
    unfold bind at 1.
    destruct (search_vector_db_run (vector_db self) query (retriever_k self)
                w) as [docs ->].
    unfold bind at 1.
    destruct (format_chat_history_ready stamp py_repr self user_id
                (logged (Searched query (retriever_k self)) w))
      as (hist & w1 & -> & _).
    { unfold can_chat. by rewrite (store_ready_files _ _ _ _ w). }
    unfold bind, log, ret. simpl. by eexists _, _. }
  rewrite Hrun in Hf, Hd. by exists r, w1.
Qed.

Lemma handle_user_input_saves (self : MedicalChatbot) (user_input : string)
    (w : world) :
  (1 <= MAX_CONVERSATION_HISTORY)%Z ->
  can_chat (memory_manager (rag_chain self)) (cb_user_id self) w = true ->
  exists r w1 w' prior timestamp,
    invoke (rag_chain self) (cb_user_id self) user_input (show_sources self) w
      = (Ok r, w1) /\
    _handle_user_input self user_input w = (Ok (answer r), w') /\
    fst (get_conversation_history (memory_manager (rag_chain self))
           (cb_user_id self) w')
      = Ok (JList (prior ++ [turn_entry timestamp user_input (answer r)
                                          None])).
Proof.
  intros HM Hready.
  destruct (invoke_returns (rag_chain self) (cb_user_id self) user_input
              (show_sources self) w Hready) as (r & w1 & Hinvoke & Hf & Hd).
  assert (can_append (memory_manager (rag_chain self)) (cb_user_id self) w1
          = true) as Hready1.
  { apply (store_ready_weaken chat_turn_ok). unfold can_chat in Hready.
    by rewrite (store_ready_files _ _ _ w1 w). }
  destruct (save_conversation_persists MAX_CONVERSATION_HISTORY stamp
              (memory_manager (rag_chain self)) (cb_user_id self)
              user_input (answer r) None w1 HM Hready1)
    as (w' & prior & timestamp & Hsave & _ & Hhist).
  exists r, w1, w', prior, timestamp. split; [done|]. split; [|done].
  unfold _handle_user_input, try_except, bind at 1. rewrite Hinvoke.
  unfold bind. by rewrite Hsave.
Qed.

(** X28. With a positive cap and a record that can be read for the prompt and
    appended to, [_handle_user_input] returns the answer of [invoke],
    whatever the query and whatever the chain does, and the history
    afterwards ends with the turn made of the input and that answer. *)
Theorem every_answer_is_saved (self : MedicalChatbot) (user_input : string)
    (w : world) :
  (1 <= MAX_CONVERSATION_HISTORY)%Z ->
  can_chat (memory_manager (rag_chain self)) (cb_user_id self) w = true ->
  exists r w1 w' prior timestamp,
    invoke (rag_chain self) (cb_user_id self) user_input (show_sources self) w
      = (Ok r, w1) /\
    _handle_user_input self user_input w = (Ok (answer r), w') /\
    fst (get_conversation_history (memory_manager (rag_chain self))
           (cb_user_id self) w')
      = Ok (JList (prior ++ [turn_entry timestamp user_input (answer r)
                                          None])).
Proof. apply handle_user_input_saves. Qed.


End Laws.

(** ** Sample runs *)


(** An append and an update of the preferences on the record of [alice]. *)
Lemma append_and_update_do_not_interfere_witness :
  let w := short_reply_store in
  let patch : gmap string json :=
    {[ "allergies" := JList [JStr "penicillin"] ]} in
  let saved := save_conversation 10 sample_stamp sample_manager "alice"
                 "and now?" "rest" None w in
  let updated := update_user_preferences sample_stamp sample_manager "alice"
                   patch w in
  saved = (Ok tt, snd saved) /\
  updated = (Ok tt, snd updated) /\
  fst (get_user_preferences sample_stamp sample_manager "alice" (snd saved))
    = fst (get_user_preferences sample_stamp sample_manager "alice" w) /\
  fst (get_conversation_history sample_stamp sample_manager "alice"
         (snd updated))
    = fst (get_conversation_history sample_stamp sample_manager "alice" w).
Proof.
  intros w patch saved updated.
  assert (Hsaved : saved = (Ok tt, snd saved)) by (vm_compute; reflexivity).
  assert (Hupdated : updated = (Ok tt, snd updated))
    by (vm_compute; reflexivity).
  split; [exact Hsaved|]. split; [exact Hupdated|]. split.
  - exact (proj1 (append_and_update_do_not_interfere 10 sample_stamp
                    sample_manager "alice" w (snd saved))
             "and now?" "rest" None Hsaved).
  - exact (proj2 (append_and_update_do_not_interfere 10 sample_stamp
                    sample_manager "alice" w (snd updated))
             patch Hupdated).
Defined.


(** Two appends to a record of one turn, with a cap of two turns. *)
Lemma appends_keep_the_most_recent_witness :
  let w := short_reply_store in
  let h := [turn_entry "2026-01-01T10:00:00" "hi" "ok" None] in
  let turns := [("and now?", "rest"); ("thanks", "take care")] in
  (1 <= 2)%Z /\
  turns <> [] /\
  can_append sample_manager "alice" w = true /\
  fst (get_conversation_history sample_stamp sample_manager "alice" w)
    = Ok (JList h) /\
  exists w' h',
    save_all 2 sample_stamp sample_manager "alice" turns w = (Ok tt, w') /\
    fst (get_conversation_history sample_stamp sample_manager "alice" w')
      = Ok (JList h') /\
    map exchange h' = last_n (Z.to_nat 2) (map exchange h ++ map said turns) /\
    length h' = Nat.min (Z.to_nat 2) (length h + length turns).
Proof.
  intros w h turns.
  assert (HM : (1 <= 2)%Z) by lia.
  assert (Hturns : turns <> []) by discriminate.
  assert (Hready : can_append sample_manager "alice" w = true)
    by (vm_compute; reflexivity).
  assert (Hhist :
    fst (get_conversation_history sample_stamp sample_manager "alice" w)
      = Ok (JList h)) by (vm_compute; reflexivity).
  split; [exact HM|]. split; [exact Hturns|]. split; [exact Hready|].
  split; [exact Hhist|].
  exact (appends_keep_the_most_recent 2 sample_stamp sample_manager "alice"
           turns h w HM Hturns Hready Hhist).
Defined.


(** Listing the users before the memory directory exists, and when its
    path names a file. *)
Lemma list_users_edge_cases_witness :
  let missing := World ∅ ∅ 0 [] in
  let taken :=
    World ∅ {[ "memory/users" := File NotJson true ]} 0 [] in
  files missing !! memory_path sample_manager = None /\
  is_dir missing (memory_path sample_manager) = false /\
  is_Some (files taken !! memory_path sample_manager) /\
  is_dir taken (memory_path sample_manager) = false /\
  list_users sample_manager missing = (Ok [], missing) /\
  list_users sample_manager taken = (Raise OSError, taken).
Proof.
  intros missing taken.
  assert (Hnone : files missing !! memory_path sample_manager = None)
    by (vm_compute; reflexivity).
  assert (Hdir : is_dir missing (memory_path sample_manager) = false)
    by (vm_compute; reflexivity).
  assert (Hsome : is_Some (files taken !! memory_path sample_manager))
    by (eexists; vm_compute; reflexivity).
  assert (Hdir' : is_dir taken (memory_path sample_manager) = false)
    by (vm_compute; reflexivity).
  split; [exact Hnone|]. split; [exact Hdir|]. split; [exact Hsome|].
  split; [exact Hdir'|]. split.
  - exact (proj1 (proj2 (list_users_edge_cases sample_manager missing))
             Hnone Hdir).
  - exact (proj2 (proj2 (list_users_edge_cases sample_manager taken))
             Hsome Hdir').
Defined.

Lemma sample_turn_is_text :
  Forall text_turn [turn_entry "2026-01-01T10:00:00" "hi" "ok" None].
Proof.
  constructor; [|constructor]. eexists _, "hi", "ok".
  split; [reflexivity|]. split; vm_compute; reflexivity.
Qed.



(** A question about fever, answered from an index of one document. *)
Lemma invoke_consults_index_then_chain_witness :
  let query := "What is a fever?" in
  let run := invoke sample_stamp sample_repr indexed_chain "alice" query
               false empty_store in
  let r := {| answer := "Rest and drink water.";
              sources :=
                [ {| content := "Fever is a rise of the body temperature.";
                     metadata := JDict ∅ |} ];
              severity_detected := false |} in
  _check_severity query = false /\
  run = (Ok r, snd run) /\
  exists chat_history,
    let docs := retrieved indexed_chain query in
    let input :=
      {| context := Py.join (NL +:+ NL) (map page_content docs);
         question := query;
         conversation_history := chat_history |} in
    fst (_format_chat_history sample_stamp sample_repr indexed_chain "alice"
           empty_store) = Ok chat_history /\
    trace (snd run)
      = trace empty_store
        ++ [Searched query (retriever_k indexed_chain); Generated input] /\
    answer r = match chain indexed_chain input with
               | Returned text => text
               | Failed message => chain_apology message
               end /\
    map content (sources r)
      = map (fun doc => Py.take 200 (page_content doc)) docs /\
    map metadata (sources r) = map doc_metadata docs /\
    severity_detected r = false.
Proof.
  intros query run r.
  assert (Hsev : _check_severity query = false) by (vm_compute; reflexivity).
  assert (Hrun : run = (Ok r, snd run)) by (vm_compute; reflexivity).
  split; [exact Hsev|]. split; [exact Hrun|].
  exact (invoke_consults_index_then_chain sample_stamp sample_repr
           indexed_chain "alice" query false empty_store (snd run) r
           Hsev Hrun).
Defined.

(** The record of [bob] cannot be decoded: the chain is not called. *)
Lemma invoke_fails_before_the_chain_witness :
  let query := "I have a mild headache" in
  let run := invoke sample_stamp sample_repr sample_chain "bob" query false
               undecodable_store in
  _check_severity query = false /\
  fst (_format_chat_history sample_stamp sample_repr sample_chain "bob"
         undecodable_store) = Raise UnicodeDecodeError /\
  fst run = Raise UnicodeDecodeError /\
  trace (snd run)
    = trace undecodable_store ++ [Searched query (retriever_k sample_chain)].
Proof.
  intros query run.
  assert (Hsev : _check_severity query = false) by (vm_compute; reflexivity).
  assert (Hhist :
    fst (_format_chat_history sample_stamp sample_repr sample_chain "bob"
           undecodable_store) = Raise UnicodeDecodeError)
    by (vm_compute; reflexivity).
  split; [exact Hsev|]. split; [exact Hhist|].
  exact (invoke_fails_before_the_chain sample_stamp sample_repr sample_chain
           "bob" query false undecodable_store UnicodeDecodeError
           Hsev Hhist).
Defined.

(** [run] on a question about fever, with and without the sources, and on
    a severe complaint. *)
Lemma run_lists_the_sources_witness :
  let query := "What is a fever?" in
  let severe := "I have chest pain" in
  let r := {| answer := "Rest and drink water.";
              sources :=
                [ {| content := "Fever is a rise of the body temperature.";
                     metadata := JDict ∅ |} ];
              severity_detected := false |} in
  let quiet := invoke sample_stamp sample_repr indexed_chain "alice" query
                 false empty_store in
  let cited := invoke sample_stamp sample_repr indexed_chain "alice" query
                 true empty_store in
  quiet = (Ok r, snd quiet) /\
  _check_severity severe = true /\
  _check_severity query = false /\
  cited = (Ok r, snd cited) /\
  MedicalRAGChain_run sample_stamp sample_repr indexed_chain "alice" query
    false empty_store = (Ok (answer r), snd quiet) /\
  MedicalRAGChain_run sample_stamp sample_repr indexed_chain "alice" severe
    true empty_store = (Ok _get_severity_warning, empty_store) /\
  MedicalRAGChain_run sample_stamp sample_repr indexed_chain "alice" query
    true empty_store
    = (Ok (answer r +:+
           match retrieved indexed_chain query with
           | [] => EmptyString
           | docs => NL +:+ NL +:+ "📚 **Sources:**" +:+ NL
                     +:+ listed_sources 1 docs
           end), snd cited).
Proof.
  intros query severe r quiet cited.
  assert (Hquiet : quiet = (Ok r, snd quiet)) by (vm_compute; reflexivity).
  assert (Hsevere : _check_severity severe = true)
    by (vm_compute; reflexivity).
  assert (Hsev : _check_severity query = false) by (vm_compute; reflexivity).
  assert (Hcited : cited = (Ok r, snd cited)) by (vm_compute; reflexivity).
  split; [exact Hquiet|]. split; [exact Hsevere|]. split; [exact Hsev|].
  split; [exact Hcited|]. split; [|split].
  - exact (proj1 (run_lists_the_sources sample_stamp sample_repr
                    indexed_chain "alice" query empty_store (snd quiet) r)
             Hquiet).
  - exact (proj1 (proj2 (run_lists_the_sources sample_stamp sample_repr
                           indexed_chain "alice" severe empty_store
                           empty_store r))
             Hsevere).
  - exact (proj2 (proj2 (run_lists_the_sources sample_stamp sample_repr
                           indexed_chain "alice" query empty_store
                           (snd cited) r))
             Hsev Hcited).
Defined.

(** A severe complaint typed while the record of [alice] cannot be
    written. *)
Lemma answer_is_withheld_when_not_saved_witness :
  can_write read_only_store
    (_get_user_file_path (memory_manager (rag_chain sample_chatbot))
       (cb_user_id sample_chatbot)) = false /\
  exists w',
    _handle_user_input 10 sample_stamp sample_repr sample_chatbot
      "I have chest pain" read_only_store = (Ok generic_apology, w') /\
    files w' = files read_only_store.
Proof.
  assert (Hw : can_write read_only_store
                 (_get_user_file_path
                    (memory_manager (rag_chain sample_chatbot))
                    (cb_user_id sample_chatbot)) = false)
    by (vm_compute; reflexivity).
  split; [exact Hw|].
  exact (answer_is_withheld_when_not_saved 10 sample_stamp sample_repr
           sample_chatbot "I have chest pain" read_only_store Hw).
Defined.


(** A sentence cut to ten characters. *)
Lemma truncate_text_fits_witness :
  let text := "The quick brown fox" in
  let short := truncate_text text 10 "..." in
  (Z.of_nat (String.length "...") <= 10)%Z /\
  (10 < Z.of_nat (String.length text))%Z /\
  (Z.of_nat (String.length short) <= 10)%Z /\
  truncate_text short 10 "..." = short /\
  Z.of_nat (String.length short) = 10%Z /\
  exists kept, short = kept +:+ "..." /\ Py.startswith kept text = true.
Proof.
  intros text short.
  assert (Hsuffix : (Z.of_nat (String.length "...") <= 10)%Z)
    by (simpl; lia).
  assert (Hlong : (10 < Z.of_nat (String.length text))%Z) by (simpl; lia).
  destruct (truncate_text_fits text "..." 10 Hsuffix)
    as (Hfits & Hagain & Hcut).
  split; [exact Hsuffix|]. split; [exact Hlong|]. split; [exact Hfits|].
  split; [exact Hagain|]. exact (Hcut Hlong).
Defined.

(** Four characters cut to two with a suffix of three. *)
Lemma truncate_text_overlong_suffix_witness :
  (2 < Z.of_nat (String.length "..."))%Z /\
  (2 < Z.of_nat (String.length "abcd"))%Z /\
  (2 < Z.of_nat (String.length (truncate_text "abcd" 2 "...")))%Z.
Proof.
  assert (Hsuffix : (2 < Z.of_nat (String.length "..."))%Z) by (simpl; lia).
  assert (Hlong : (2 < Z.of_nat (String.length "abcd"))%Z) by (simpl; lia).
  split; [exact Hsuffix|]. split; [exact Hlong|].
  exact (truncate_text_overlong_suffix "abcd" "..." 2 Hsuffix Hlong).
Defined.

(** An operation that fails twice and then returns. *)
Lemma retry_returns_first_success_witness :
  let func := fun n : nat =>
    if Nat.ltb n 2 then Failed "timeout" else Returned 7%Z in
  (0 <= 1)%Z /\
  (Z.of_nat 2 < 3)%Z /\
  (forall j, j < 2 -> exists message, func j = Failed message) /\
  func 2 = Returned 7%Z /\
  retry_operation func 3 1
  = {| ended := Returned (Some 7%Z);
       calls := 2 + 1;
       slept := 1 * (2 ^ Z.of_nat 2 - 1) |}.
Proof.
  intros func.
  assert (Hdelay : (0 <= 1)%Z) by lia.
  assert (Hk : (Z.of_nat 2 < 3)%Z) by lia.
  assert (Hfail : forall j, j < 2 -> exists message, func j = Failed message).
  { intros j Hj. exists "timeout". unfold func.
    destruct (Nat.ltb_spec j 2); [reflexivity | lia]. }
  assert (Hok : func 2 = Returned 7%Z) by reflexivity.
  split; [exact Hdelay|]. split; [exact Hk|]. split; [exact Hfail|].
  split; [exact Hok|].
  exact (retry_returns_first_success func 3 1 2 7%Z Hdelay Hk Hfail Hok).
Defined.

(** An operation that always fails, with no attempt and with three. *)
Lemma retry_gives_up_witness :
  let func : nat -> outcome Z := fun _ => Failed "timeout" in
  (0 <= 0)%Z /\
  (1 <= 3)%Z /\
  (0 <= 1)%Z /\
  (forall j, (Z.of_nat j < 3)%Z -> exists m, func j = Failed m) /\
  func (Z.to_nat 3 - 1) = Failed "timeout" /\
  retry_operation func 0 1
  = {| ended := Returned None; calls := 0; slept := 0 |} /\
  retry_operation func 3 1
  = {| ended := Failed "timeout";
       calls := Z.to_nat 3;
       slept := 1 * (2 ^ (3 - 1) - 1) |}.
Proof.
  intros func.
  assert (Hnone : (0 <= 0)%Z) by lia.
  assert (Hmax : (1 <= 3)%Z) by lia.
  assert (Hdelay : (0 <= 1)%Z) by lia.
  assert (Hfail : forall j, (Z.of_nat j < 3)%Z -> exists m, func j = Failed m)
    by (intros j _; exists "timeout"; reflexivity).
  assert (Hlast : func (Z.to_nat 3 - 1) = Failed "timeout") by reflexivity.
  split; [exact Hnone|]. split; [exact Hmax|]. split; [exact Hdelay|].
  split; [exact Hfail|]. split; [exact Hlast|]. split.
  - exact (proj1 (retry_gives_up Z func 0 1) Hnone).
  - exact (proj2 (retry_gives_up Z func 3 1) Hmax Hdelay "timeout"
             Hfail Hlast).
Defined.

(** A URLs file of two addresses, a comment and a blank line. *)
Lemma url_requests_witness :
  let lines := ["https://a.example"; "# mirrors"; "  ";
                " https://b.example "] in
  let reachable : web_loader := fun _ _ => Returned [] in
  let unreachable : web_loader := fun _ _ => Failed "timeout" in
  (forall made batch, exists docs, reachable made batch = Returned docs) /\
  (forall made batch, exists message,
      unreachable made batch = Failed message) /\
  snd (load_url_documents reachable (Some (Returned lines)))
    = url_batches (parse_url_lines lines) /\
  load_url_documents unreachable (Some (Returned lines))
    = ([], flat_map (fun batch => batch :: map (fun url => [url]) batch)
                    (url_batches (parse_url_lines lines))).
Proof.
  intros lines reachable unreachable.
  assert (Hok : forall made batch, exists docs,
             reachable made batch = Returned docs)
    by (intros made batch; exists []; reflexivity).
  assert (Hfail : forall made batch, exists message,
             unreachable made batch = Failed message)
    by (intros made batch; exists "timeout"; reflexivity).
  split; [exact Hok|]. split; [exact Hfail|]. split.
  - exact (proj1 (url_requests reachable lines) Hok).
  - exact (proj1 (proj2 (url_requests unreachable lines)) Hfail).
Defined.

(** A mild complaint typed by [alice], whose record holds one turn. *)
Lemma every_answer_is_saved_witness :
  let w := short_reply_store in
  let query := "I have had a mild headache for two days" in
  (1 <= 10)%Z /\
  can_chat (memory_manager (rag_chain sample_chatbot))
    (cb_user_id sample_chatbot) w = true /\
  exists r w1 w' prior timestamp,
    invoke sample_stamp sample_repr (rag_chain sample_chatbot)
      (cb_user_id sample_chatbot) query (show_sources sample_chatbot) w
      = (Ok r, w1) /\
    _handle_user_input 10 sample_stamp sample_repr sample_chatbot query w
      = (Ok (answer r), w') /\
    fst (get_conversation_history sample_stamp
           (memory_manager (rag_chain sample_chatbot))
           (cb_user_id sample_chatbot) w')
      = Ok (JList (prior ++ [turn_entry timestamp query (answer r) None])).
Proof.
  intros w query.
  assert (HM : (1 <= 10)%Z) by lia.
  assert (Hready : can_chat (memory_manager (rag_chain sample_chatbot))
                     (cb_user_id sample_chatbot) w = true)
    by (vm_compute; reflexivity).
  split; [exact HM|]. split; [exact Hready|].
  exact (every_answer_is_saved 10 sample_stamp sample_repr sample_chatbot
           query w HM Hready).
Defined.


